(** * Tentacles Google Ads upload handlers and the Cloud Functions wrapper

    A shallow embedding of

    - [api_handlers/google_ads_conversion_adjustments_upload.js]
      (classes [GoogleAdsConversionAdjustment] and
      [GoogleAdsOfflineUserDataJobUpload]), and
    - [apps_script/1_gcp/cloud_functions.js] (class [CloudFunctions]).

    JavaScript values are an inductive type: objects are finite maps from
    property names to values, numbers are binary64 floats.  The speed
    settings of a configuration are counts and are held as integers.  Code that
    throws, talks to a remote service or mutates an object of its caller is
    written in a state-and-exception monad whose state carries the state of
    the outside world, the mutated object, and the trace of remote calls. *)

From Stdlib Require Import ZArith Floats Ascii String.
From stdpp Require Import base option list strings gmap.

Local Open Scope string_scope.
Set Warnings "-register-all".

(** ** JavaScript values *)

Module Js.

Inductive Value : Type :=
| Undefined
| Null
| Bool (b : bool)
| Num (d : float)
| Str (s : string)
| Arr (items : list Value)
| Obj (props : gmap string Value).

(** What a [throw] carries: the constructor name and the message. *)
Inductive Error : Type :=
| PlainError (msg : string)
| TypeError (msg : string)
| SyntaxError (msg : string)
| Thrown (v : Value).

(** [ToBoolean]: the values an [if] takes for false are [undefined],
    [null], [false], [0], [-0], [NaN] and the empty string. *)
Definition truthy (v : Value) : bool :=
  match v with
  | Undefined | Null => false
  | Bool b => b
  | Num d => negb (PrimFloat.is_zero d || PrimFloat.is_nan d)
  | Str s => negb (String.eqb s "")
  | Arr _ | Obj _ => true
  end.

(** Property read [v.key] (and the destructuring [const {key} = v]).
    Reading from [undefined] or [null] throws a [TypeError]; an object
    answers with its own property or [undefined]; the primitives and
    arrays have none of the properties the two source files read
    ([bucket], [file], [type], [name], [error], [code]). *)
Definition member (v : Value) (key : string) : Error + Value :=
  match v with
  | Undefined => inl (TypeError ("Cannot read properties of undefined (reading '" ++ key ++ "')"))
  | Null => inl (TypeError ("Cannot read properties of null (reading '" ++ key ++ "')"))
  | Obj props => inr (default Undefined (props !! key))
  | _ => inr Undefined
  end.

(** The text of an error, as [error.message] or [String(error)] give it. *)
Definition message (e : Error) : string :=
  match e with
  | PlainError m | TypeError m | SyntaxError m => m
  | Thrown (Str s) => s
  | Thrown _ => "[object]"
  end.

(** [v === 404] and the like: strict equality with a number literal. *)
Definition strictEqNum (v : Value) (d : float) : bool :=
  match v with
  | Num d' => PrimFloat.eqb d' d
  | _ => false
  end.

End Js.


(** ** Computations that may throw and that change a state *)

Inductive Outcome (A : Type) : Type :=
| Ret (a : A)
| Throw (e : Js.Error).
Arguments Ret {A} a.
Arguments Throw {A} e.

Section Monad.
Context {St : Type}.

Definition M (A : Type) : Type := St -> Outcome A * St.

Definition ret {A} (a : A) : M A := fun s => (Ret a, s).

Definition throw {A} (e : Js.Error) : M A := fun s => (Throw e, s).

Definition bind {A B} (c : M A) (k : A -> M B) : M B :=
  fun s => match c s with
           | (Ret a, s') => k a s'
           | (Throw e, s') => (Throw e, s')
           end.

(** [try { c } catch (error) { h error }]: what [c] did to the state
    before it threw stays done. *)
Definition try_catch {A} (c : M A) (h : Js.Error -> M A) : M A :=
  fun s => match c s with
           | (Ret a, s') => (Ret a, s')
           | (Throw e, s') => h e s'
           end.

(** A pure step that may throw. *)
Definition lift {A} (r : Js.Error + A) : M A :=
  match r with
  | inl e => throw e
  | inr a => ret a
  end.

Definition modify (f : St -> St) : M unit := fun s => (Ret tt, f s).

Definition gets {A} (f : St -> A) : M A := fun s => (Ret (f s), s).

End Monad.
Arguments M St A : clear implicits.

Declare Scope js_scope.
Delimit Scope js_scope with js.
Notation "x <- c ;; k" := (bind c (fun x => k))
  (at level 100, c at next level, right associativity) : js_scope.
Notation "c ;; k" := (bind c (fun _ => k))
  (at level 100, k at level 200, right associativity) : js_scope.
Local Open Scope js_scope.

(** ** Results of an upload *)

(** [BatchResult] of [@google-cloud/nodejs-common]: the two fields the
    handlers build and return. *)
Record BatchResult : Type := {
  result : bool;
  errors : list string;
}.

(** ** The managed send

    Both handlers obtain [managedSend] from the inherited
    [getManagedSendFn(config)], which is not among the source files; the
    specification describes it as partitioner, executor and aggregator. *)

Module ManagedSend.

(** A batch is an ordered sequence of raw record strings. *)
Definition RecordBatch : Type := list string.

Record BatchOutcome : Type := {
  batchIndex : nat;
  success : bool;
  errorMessages : list string;
}.

Definition newline : ascii := Ascii.ascii_of_nat 10.

(** Cut a string at every occurrence of [sep]. *)
Fixpoint splitOn (sep : ascii) (s : string) : list string :=
  match s with
  | EmptyString => [EmptyString]
  | String c rest =>
      if Ascii.eqb c sep then EmptyString :: splitOn sep rest
      else match splitOn sep rest with
           | [] => [String c EmptyString]
           | line :: lines => String c line :: lines
           end
  end.

(** Modelled from the spec: the raw record stream of the Batch
    Partitioner (4.2), absent from the source files.  Records are
    delimited by line breaks; an empty stream holds no record, so the
    empty pieces between, before and after line breaks are not records. *)
Definition recordsOf (stream : string) : list string :=
  List.filter (fun line => negb (String.eqb line "")) (splitOn newline stream).

Fixpoint chunks (fuel : nat) (size : nat) (records : list string)
  : list RecordBatch :=
  match fuel with
  | O => []
  | S fuel' =>
      match records with
      | [] => []
      | _ :: _ => take size records :: chunks fuel' size (drop size records)
      end
  end.

(** Modelled from the spec: the Batch Partitioner (4.2), absent from the
    source files: consecutive groups of [recordsPerRequest] whole records,
    the last one possibly shorter.  Every round takes at least one record
    when [recordsPerRequest > 0], so as many rounds as there are records
    are enough. *)
Definition partition (recordsPerRequest : nat) (records : list string)
  : list RecordBatch :=
  chunks (length records) recordsPerRequest records.

(** What one batch send answers: success, or a failure with its error
    text (6, batch-send operation). *)
Inductive SendResult : Type :=
| Sent
| Failed (errorText : list string).

Definition outcomeOf (index : nat) (r : SendResult) : BatchOutcome :=
  match r with
  | Sent => {| batchIndex := index; success := true; errorMessages := [] |}
  | Failed text => {| batchIndex := index; success := false; errorMessages := text |}
  end.

(** Modelled from the spec: the Result Aggregator (4.5), absent from the
    source files: the conjunction of the batch successes and the errors of
    all batches in batch order. *)
Definition aggregate (outcomes : list BatchOutcome) : BatchResult :=
  {| result := forallb success outcomes;
     errors := concat (map errorMessages outcomes) |}.

End ManagedSend.

(** ** The Google Ads upload handlers *)

(** The destination of a batch send, as the two factories of the injected
    [googleAds] instance fix it. *)
Inductive SendTarget : Type :=
| ConversionAdjustments (customerId loginCustomerId adsConfig : Js.Value)
| OfflineUserDataJobOperations (offlineUserDataJobConfig : Js.Value)
                               (jobResourceName : Js.Value).

(** The remote calls an upload makes, in the order it makes them. *)
Inductive Event : Type :=
| LoadContent (bucket file : Js.Value)
| GetOrCreateUserList (offlineUserDataJobConfig : Js.Value)
| CreateOfflineUserDataJob (offlineUserDataJobConfig : Js.Value)
| BatchSend (target : SendTarget) (batch : ManagedSend.RecordBatch)
| RunOfflineUserDataJob (offlineUserDataJobConfig : Js.Value)
                        (jobResourceName : Js.Value).

Inductive LogLevel : Type := Info | Error.

Inductive LogArg : Type :=
| LogValue (v : Js.Value)
| LogText (s : string)
| LogResult (r : BatchResult)
| LogError (e : Js.Error).

(** The state an upload runs in: the outside world [W] (the remote
    services), the object [config.offlineUserDataJobConfig] of the caller,
    which the job upload assigns to, the remote calls made so far and the
    lines given to [this.logger]. *)
Record State (W : Type) : Type := {
  world : W;
  jobConfig : Js.Value;
  trace : list Event;
  logs : list (LogLevel * string * LogArg);
}.
Arguments world {W} s.
Arguments jobConfig {W} s.
Arguments trace {W} s.
Arguments logs {W} s.

(** A remote call: a change of the outside world with a value or a throw. *)
Definition Remote (W A : Type) : Type := W -> Outcome A * W.

(** A configured upload function: one batch in, success or failure out. *)
Definition SendFn (W : Type) : Type :=
  ManagedSend.RecordBatch -> W -> ManagedSend.SendResult * W.

(** The injected [googleAds] instance: the four methods the handlers call. *)
Record GoogleAds (W : Type) : Type := {
  getUploadConversionAdjustmentFn : Js.Value -> Js.Value -> Js.Value -> SendFn W;
  createOfflineUserDataJob : Js.Value -> Remote W Js.Value;
  getAddOperationsToOfflineUserDataJobFn : Js.Value -> Js.Value -> SendFn W;
  runOfflineUserDataJob : Js.Value -> Js.Value -> Remote W unit;
}.
Arguments getUploadConversionAdjustmentFn {W} g.
Arguments createOfflineUserDataJob {W} g.
Arguments getAddOperationsToOfflineUserDataJobFn {W} g.
Arguments runOfflineUserDataJob {W} g.

Module SpeedOptions.
Record t : Type := {
  recordsPerRequest : Z;
  numberOfThreads : Z;
  qps : Z;
}.
End SpeedOptions.

(** [GoogleAdsConversionConfig], declared in
    [google_ads_click_conversions_upload.js]: the fields destructured here
    and the speed settings the inherited [getSpeedOptions] reads. *)
Module GoogleAdsConversionConfig.
Record t : Type := {
  customerId : Js.Value;
  loginCustomerId : Js.Value;
  adsConfig : Js.Value;
  recordsPerRequest : option Z;
  numberOfThreads : option Z;
  qps : option Z;
}.
End GoogleAdsConversionConfig.

(** [GoogleAdsOfflineUserDataJobConfig].  The object in its field
    [offlineUserDataJobConfig] is assigned to during an upload, so it lives
    in the state ([jobConfig]); the configuration refers to it. *)
Module GoogleAdsOfflineUserDataJobConfig.
Record t : Type := {
  developerToken : string;
  recordsPerRequest : option Z;
  qps : option Z;
  secretName : option string;
  (** Whatever else the configuration object carries, a [numberOfThreads]
      for one. *)
  others : gmap string Js.Value;
}.
End GoogleAdsOfflineUserDataJobConfig.

(** What the handlers import or inherit and the source files do not hold. *)
Record Imports (W : Type) : Type := {
  (** [JSON.parse]: a value, or a [SyntaxError]. *)
  JSON_parse : string -> Js.Error + Js.Value;
  (** [new StorageFile(bucket, file).loadContent(0)]. *)
  loadContent : Js.Value -> Js.Value -> Remote W string;
  (** [getProperValue(value, defaultValue, capped = true)] of the common
      library. *)
  getProperValue : option Z -> Z -> bool -> Z;
  (** [getOrCreateUserList] of [GoogleAdsCustomerMatch]. *)
  getOrCreateUserList : GoogleAds W -> Js.Value -> Remote W Js.Value;
  (** [getSpeedOptions] of [GoogleAdsClickConversionUpload]. *)
  clickConversionSpeedOptions : GoogleAdsConversionConfig.t -> SpeedOptions.t;
}.
Arguments JSON_parse {W} i.
Arguments loadContent {W} i.
Arguments getProperValue {W} i.
Arguments getOrCreateUserList {W} i.
Arguments clickConversionSpeedOptions {W} i.

Section Upload.
Context {W : Type}.

(** Issue a remote call and write it to the trace, whether it returns or
    throws. *)
Definition call {A} (ev : Event) (f : Remote W A) : M (State W) A :=
  fun s =>
    let '(r, w) := f (world s) in
    (r, {| world := w; jobConfig := jobConfig s;
           trace := trace s ++ [ev]; logs := logs s |}).

Definition log (level : LogLevel) (label : string) (arg : LogArg)
  : M (State W) unit :=
  modify (fun s => {| world := world s; jobConfig := jobConfig s;
                      trace := trace s;
                      logs := logs s ++ [(level, label, arg)] |}).

(** [config.offlineUserDataJobConfig.list_id = id]. *)
Definition assignListId (id : Js.Value) : M (State W) unit :=
  modify (fun s =>
    {| world := world s;
       jobConfig := match jobConfig s with
                    | Js.Obj props => Js.Obj (<["list_id" := id]> props)
                    | v => v
                    end;
       trace := trace s; logs := logs s |}).

(** [type.startsWith('CUSTOMER_MATCH')]: only a string has the method. *)
Definition startsWith (v : Js.Value) (prefix : string) : Js.Error + bool :=
  match v with
  | Js.Str s => inr (String.prefix prefix s)
  | Js.Undefined =>
      inl (Js.TypeError "Cannot read properties of undefined (reading 'startsWith')")
  | Js.Null =>
      inl (Js.TypeError "Cannot read properties of null (reading 'startsWith')")
  | _ => inl (Js.TypeError "startsWith is not a function")
  end.

(** *** The managed send, on the state *)

(** One batch send: the remote call is traced and its failure is kept in
    the outcome of that batch. *)
Definition sendBatch (target : SendTarget) (send : SendFn W) (index : nat)
    (batch : ManagedSend.RecordBatch) : M (State W) ManagedSend.BatchOutcome :=
  fun s =>
    let '(r, w) := send batch (world s) in
    (Ret (ManagedSend.outcomeOf index r),
     {| world := w; jobConfig := jobConfig s;
        trace := trace s ++ [BatchSend target batch]; logs := logs s |}).

(** Modelled from the spec: the Upload Executor (4.4), absent from the
    source files: every batch is sent, in index order, whatever happened
    to the batches before it. *)
Fixpoint execute (target : SendTarget) (send : SendFn W) (index : nat)
    (batches : list ManagedSend.RecordBatch)
  : M (State W) (list ManagedSend.BatchOutcome) :=
  match batches with
  | [] => ret []
  | batch :: rest =>
      outcome <- sendBatch target send index batch ;;
      outcomes <- execute target send (S index) rest ;;
      ret (outcome :: outcomes)
  end.

(** Modelled from the spec: the function [getManagedSendFn(config)]
    returns, absent from the source files: partition the records by the
    [recordsPerRequest] of the handler's speed options, send every batch,
    aggregate (4.2 to 4.5).  The pacing by [qps] and the overlap of sends
    that [numberOfThreads] allows are not part of this model: sends
    appear in the order in which they are admitted. *)
Definition managedSend (options : SpeedOptions.t) (target : SendTarget)
    (send : SendFn W) (records : string) (messageId : string)
  : M (State W) BatchResult :=
  outcomes <- execute target send 0
    (ManagedSend.partition (Z.to_nat (SpeedOptions.recordsPerRequest options))
                           (ManagedSend.recordsOf records)) ;;
  ret (ManagedSend.aggregate outcomes).

(** Modelled from the spec: [getResultFromError], inherited and absent
    from the source files: a failed [BatchResult] whose errors hold a
    single descriptive message (4.6, error handling). *)
Definition getResultFromError (error : Js.Error) : BatchResult :=
  {| result := false; errors := [Js.message error] |}.

End Upload.

(** *** class GoogleAdsConversionAdjustment *)

Module GoogleAdsConversionAdjustment.
Import GoogleAdsConversionConfig.

Section Class.
Context {W : Type} (imports : Imports W).

(** Inherited from [GoogleAdsClickConversionUpload]. *)
Definition getSpeedOptions (config : GoogleAdsConversionConfig.t)
  : SpeedOptions.t :=
  clickConversionSpeedOptions imports config.

(** Modelled from the spec: [getManagedSendFn], inherited and absent from
    the source files: the managed send under the speed options of the
    handler. *)
Definition getManagedSendFn (config : GoogleAdsConversionConfig.t) :=
  managedSend (W := W) (getSpeedOptions config).

Definition sendDataInternal (googleAds : GoogleAds W)
    (records : string) (messageId : string)
    (config : GoogleAdsConversionConfig.t) : M (State W) BatchResult :=
  let managedSend := getManagedSendFn config in
  let configuredUpload :=
    getUploadConversionAdjustmentFn googleAds
      (customerId config) (loginCustomerId config) (adsConfig config) in
  managedSend
    (ConversionAdjustments
       (customerId config) (loginCustomerId config) (adsConfig config))
    configuredUpload records messageId.

Definition code : string := "ACA".

End Class.
End GoogleAdsConversionAdjustment.

(** *** class GoogleAdsOfflineUserDataJobUpload *)

Module GoogleAdsOfflineUserDataJobUpload.
Import GoogleAdsOfflineUserDataJobConfig.

Definition RECORDS_PER_REQUEST : Z := 100000.
Definition NUMBER_OF_THREADS : Z := 1.
Definition QUERIES_PER_SECOND : Z := 1.

Section Class.
Context {W : Type} (imports : Imports W).

Definition getSpeedOptions (config : GoogleAdsOfflineUserDataJobConfig.t)
  : SpeedOptions.t :=
  let recordsPerRequest :=
    getProperValue imports (recordsPerRequest config) RECORDS_PER_REQUEST true in
  let numberOfThreads := NUMBER_OF_THREADS in
  let qps := getProperValue imports (qps config) QUERIES_PER_SECOND false in
  {| SpeedOptions.recordsPerRequest := recordsPerRequest;
     SpeedOptions.numberOfThreads := numberOfThreads;
     SpeedOptions.qps := qps |}.

(** Modelled from the spec: [getManagedSendFn], inherited and absent from
    the source files: the managed send under the speed options of the
    handler, here those of the overriding [getSpeedOptions]. *)
Definition getManagedSendFn (config : GoogleAdsOfflineUserDataJobConfig.t) :=
  managedSend (W := W) (getSpeedOptions config).

(** The first [try] of [sendDataInternal]: the records to send, or the
    value of the [return] in its [else] branch. *)
Definition resolveRecords (message : string)
  : M (State W) (BatchResult + string) :=
  try_catch
    (parsed <- lift (JSON_parse imports message) ;;
     bucket <- lift (Js.member parsed "bucket") ;;
     file <- lift (Js.member parsed "file") ;;
     if Js.truthy file then
       records <- call (LoadContent bucket file)
                       (loadContent imports bucket file) ;;
       ret (inr records)
     else
       log Error "Could find GCS infomation in message" (LogText message) ;;
       ret (inl {| result := false;
                   errors := ["Could find GCS infomation in message: "
                                ++ message] |}))
    (fun error =>
       log Error "Incoming message: " (LogText message) ;;
       ret (inr message)).

(** The block of the second [try] of [sendDataInternal].  The local
    [offlineUserDataJobConfig] and [config.offlineUserDataJobConfig] are
    one object: each use reads the object as it is by then. *)
Definition uploadToJob (googleAds : GoogleAds W) (records : string)
    (messageId : string) (config : GoogleAdsOfflineUserDataJobConfig.t)
  : M (State W) BatchResult :=
  offlineUserDataJobConfig <- gets jobConfig ;;
  type <- lift (Js.member offlineUserDataJobConfig "type") ;;
  customerMatch <- lift (startsWith type "CUSTOMER_MATCH") ;;
  (if customerMatch : bool then
     listId <- call (GetOrCreateUserList offlineUserDataJobConfig)
                    (getOrCreateUserList imports googleAds
                       offlineUserDataJobConfig) ;;
     assignListId listId
   else ret tt) ;;
  offlineUserDataJobConfig <- gets jobConfig ;;
  jobResourceName <-
    call (CreateOfflineUserDataJob offlineUserDataJobConfig)
         (createOfflineUserDataJob googleAds offlineUserDataJobConfig) ;;
  log Info "jobResourceName: " (LogValue jobResourceName) ;;
  let managedSend := getManagedSendFn config in
  let configedUpload :=
    getAddOperationsToOfflineUserDataJobFn googleAds
      offlineUserDataJobConfig jobResourceName in
  result <- managedSend
              (OfflineUserDataJobOperations offlineUserDataJobConfig
                                            jobResourceName)
              configedUpload records messageId ;;
  log Info "add userdata result: " (LogResult result) ;;
  call (RunOfflineUserDataJob offlineUserDataJobConfig jobResourceName)
       (runOfflineUserDataJob googleAds offlineUserDataJobConfig
          jobResourceName) ;;
  ret result.

(** The [catch] of the second [try]. *)
Definition uploadFailed (error : Js.Error) : M (State W) BatchResult :=
  log Error "Error in UserdataOfflineDataService: " (LogError error) ;;
  ret (getResultFromError error).

Definition sendDataInternal (googleAds : GoogleAds W) (message : string)
    (messageId : string) (config : GoogleAdsOfflineUserDataJobConfig.t)
  : M (State W) BatchResult :=
  source <- resolveRecords message ;;
  match source with
  | inl failed => ret failed
  | inr records =>
      try_catch (uploadToJob googleAds records messageId config) uploadFailed
  end.

Definition code : string := "AOUD".
Definition defaultOnGcs : bool := true.

End Class.
End GoogleAdsOfflineUserDataJobUpload.

(** ** The Cloud Functions API handler *)

Module CloudFunctions.

(** Requests sent through [ApiBase]; [method] is [None] where the caller
    leaves the argument out. *)
Inductive Request : Type :=
| HttpGet (path : string)
| HttpMutate (path : string) (payload : Js.Value) (method : option string).

(** The state of a call: the outside world, the properties of the
    [payload] object of the caller (which [createOrUpdate] assigns to),
    the requests sent and the lines written with [console.error]. *)
Record State (W : Type) : Type := {
  world : W;
  payload : gmap string Js.Value;
  requests : list Request;
  console : list (string * Js.Value);
}.
Arguments world {W} s.
Arguments payload {W} s.
Arguments requests {W} s.
Arguments console {W} s.

(** The two methods of the parent class [ApiBase] the handler uses. *)
Record ApiBase (W : Type) : Type := {
  get : string -> Remote W Js.Value;
  mutate : string -> Js.Value -> option string -> Remote W Js.Value;
}.
Arguments get {W} a.
Arguments mutate {W} a.

Record t : Type := {
  apiUrl : string;
  version : string;
  projectId : string;
  locationId : string;
}.

Definition constructor (projectId locationId : string) : t :=
  {| apiUrl := "https://cloudfunctions.googleapis.com";
     version := "v1";
     projectId := projectId;
     locationId := locationId |}.

Definition getBaseUrl (this : t) : string :=
  apiUrl this ++ "/" ++ version this.

Section Class.
Context {W : Type} (super : ApiBase W).

Definition request {A} (r : Request) (f : Remote W A) : M (State W) A :=
  fun s =>
    let '(o, w) := f (world s) in
    (o, {| world := w; payload := payload s;
           requests := requests s ++ [r]; console := console s |}).

Definition consoleError (text : string) (v : Js.Value) : M (State W) unit :=
  modify (fun s => {| world := world s; payload := payload s;
                      requests := requests s;
                      console := console s ++ [(text, v)] |}).

(** [payload.name = value]. *)
Definition assignName (value : Js.Value) : M (State W) unit :=
  modify (fun s => {| world := world s;
                      payload := <["name" := value]> (payload s);
                      requests := requests s; console := console s |}).

Definition superGet (path : string) : M (State W) Js.Value :=
  request (HttpGet path) (get super path).

Definition thisMutate (path : string) (payload : Js.Value)
    (method : option string) : M (State W) Js.Value :=
  request (HttpMutate path payload method) (mutate super path payload method).

Definition listLocations (this : t) : M (State W) Js.Value :=
  response <- superGet ("projects/" ++ projectId this ++ "/locations") ;;
  lift (Js.member response "locations").

Definition getFunction (this : t) (functionName : string)
  : M (State W) Js.Value :=
  superGet ("projects/" ++ projectId this ++ "/locations/" ++ locationId this
              ++ "/functions/" ++ functionName).

Definition exist (this : t) (functionName : string) : M (State W) bool :=
  response <- getFunction this functionName ;;
  name <- lift (Js.member response "name") ;;
  if Js.truthy name then ret true
  else
    error <- lift (Js.member response "error") ;;
    code <- lift (Js.member error "code") ;;
    if Js.strictEqNum code 404%float then ret false
    else
      consoleError ("Unknown status of Cloud Functions " ++ functionName)
                   response ;;
      throw (Js.PlainError
               ("Unknown status of Cloud Functions " ++ functionName)).

Definition listFunctions (this : t) (locationId : string)
  : M (State W) Js.Value :=
  superGet ("projects/" ++ projectId this ++ "/locations/" ++ locationId
              ++ "/functions").

Definition listFunctionsForAllLocations (this : t) : M (State W) Js.Value :=
  listFunctions this "-".

Definition createFunction (this : t) (payload : Js.Value)
  : M (State W) Js.Value :=
  thisMutate ("projects/" ++ projectId this ++ "/locations/"
                ++ locationId this ++ "/functions")
             payload None.

Definition updateFunction (this : t) (functionsName : string)
    (payload : Js.Value) : M (State W) Js.Value :=
  thisMutate ("projects/" ++ projectId this ++ "/locations/"
                ++ locationId this ++ "/functions/" ++ functionsName)
             payload (Some "PATCH").

(** [payload] is the object of the caller, kept in the state. *)
Definition createOrUpdate (this : t) (functionsName : string)
  : M (State W) Js.Value :=
  exists_ <- exist this functionsName ;;
  operation <-
    (if exists_ : bool then
       payload <- gets payload ;;
       updateFunction this functionsName (Js.Obj payload)
     else
       assignName (Js.Str ("projects/" ++ projectId this ++ "/locations/"
                             ++ locationId this ++ "/functions/"
                             ++ functionsName)) ;;
       payload <- gets payload ;;
       createFunction this (Js.Obj payload)) ;;
  lift (Js.member operation "name").

Definition generateUploadUrl (this : t) : M (State W) Js.Value :=
  thisMutate ("projects/" ++ projectId this ++ "/locations/"
                ++ locationId this ++ "/functions:generateUploadUrl")
             Js.Undefined None.

Definition getOperation (operationName : string) : M (State W) Js.Value :=
  superGet operationName.

End Class.
End CloudFunctions.

(** ** Vocabulary of the statements *)

(** The outcomes of sending [batches] one after the other from the world
    [w], and the world they leave. *)
Fixpoint sendAll {W : Type} (send : SendFn W) (index : nat)
    (batches : list ManagedSend.RecordBatch) (w : W)
  : list ManagedSend.BatchOutcome * W :=
  match batches with
  | [] => ([], w)
  | batch :: rest =>
      let '(r, w1) := send batch w in
      let '(outcomes, w2) := sendAll send (S index) rest w1 in
      (ManagedSend.outcomeOf index r :: outcomes, w2)
  end.

Definition isListCreation (ev : Event) : bool :=
  match ev with GetOrCreateUserList _ => true | _ => false end.

Definition isJobCreation (ev : Event) : bool :=
  match ev with CreateOfflineUserDataJob _ => true | _ => false end.

Definition isBatchSend (ev : Event) : bool :=
  match ev with BatchSend _ _ => true | _ => false end.

Definition isRunJob (ev : Event) : bool :=
  match ev with RunOfflineUserDataJob _ _ => true | _ => false end.

Definition occurrences (p : Event -> bool) (events : list Event) : nat :=
  length (List.filter p events).

(** The batches the offline user data job upload makes of [records] under
    [config]. *)
Definition batchesOf {W : Type} (imports : Imports W)
    (config : GoogleAdsOfflineUserDataJobConfig.t) (records : string)
  : list ManagedSend.RecordBatch :=
  ManagedSend.partition
    (Z.to_nat (SpeedOptions.recordsPerRequest
                 (GoogleAdsOfflineUserDataJobUpload.getSpeedOptions imports config)))
    (ManagedSend.recordsOf records).

(** [needle] occurs somewhere in [text]. *)
Fixpoint occursIn (needle text : string) : bool :=
  String.prefix needle text
  || match text with
     | EmptyString => false
     | String _ rest => occursIn needle rest
     end.

(** ** Test doubles

    Stand-ins for the remote services, used to run the handlers on concrete
    messages.  Their outside world is the number of calls received. *)

Module Doubles.

Definition dq : string := String (Ascii.ascii_of_nat 34) EmptyString.

(** The message [{"bucket":"b","file":"f"}]. *)
Definition referenceMessage : string :=
  "{" ++ dq ++ "bucket" ++ dq ++ ":" ++ dq ++ "b" ++ dq ++ ","
      ++ dq ++ "file" ++ dq ++ ":" ++ dq ++ "f" ++ dq ++ "}".

(** The message [{"bucket":"b"}]. *)
Definition bucketOnlyMessage : string :=
  "{" ++ dq ++ "bucket" ++ dq ++ ":" ++ dq ++ "b" ++ dq ++ "}".

(** An inline record, which is no JSON text. *)
Definition inlineMessage : string := "user@example.com".

(** [JSON.parse] on the messages used here: the three JSON texts parse
    to their objects, every other text used is no JSON text. *)
Definition parse (text : string) : Js.Error + Js.Value :=
  if String.eqb text referenceMessage then
    inr (Js.Obj {[ "bucket" := Js.Str "b"; "file" := Js.Str "f" ]})
  else if String.eqb text bucketOnlyMessage then
    inr (Js.Obj {[ "bucket" := Js.Str "b" ]})
  else if String.eqb text "{}" then
    inr (Js.Obj ∅)
  else
    inl (Js.SyntaxError "Unexpected token in JSON").

(** The stored object does not exist. *)
Definition loadMissing (bucket file : Js.Value) : Remote nat string :=
  fun w => (Throw (Js.PlainError "No such object"), S w).

(** The usual reading of a proper value: a positive number, capped by
    the default when asked to. *)
Definition properValue (value : option Z) (defaultValue : Z) (capped : bool)
  : Z :=
  match value with
  | Some v =>
      if (0 <? v)%Z then (if capped then Z.min v defaultValue else v)
      else defaultValue
  | None => defaultValue
  end.

Definition isProper (value : option Z) : bool :=
  match value with
  | Some v => (0 <? v)%Z
  | None => false
  end.

Definition userList (googleAds : GoogleAds nat) (config : Js.Value)
  : Remote nat Js.Value :=
  fun w => (Ret (Js.Str "list-7"), S w).

Definition noUserList (googleAds : GoogleAds nat) (config : Js.Value)
  : Remote nat Js.Value :=
  fun w => (Throw (Js.PlainError "list creation refused"), S w).

Definition speed (config : GoogleAdsConversionConfig.t) : SpeedOptions.t :=
  {| SpeedOptions.recordsPerRequest :=
       properValue (GoogleAdsConversionConfig.recordsPerRequest config) 2000 true;
     SpeedOptions.numberOfThreads :=
       properValue (GoogleAdsConversionConfig.numberOfThreads config) 1 false;
     SpeedOptions.qps :=
       properValue (GoogleAdsConversionConfig.qps config) 1 false |}.

Definition imports : Imports nat :=
  {| JSON_parse := parse;
     loadContent := loadMissing;
     getProperValue := properValue;
     getOrCreateUserList := userList;
     clickConversionSpeedOptions := speed |}.

Definition sendOk : SendFn nat :=
  fun batch w => (ManagedSend.Sent, S w).

(** Refuses every batch that holds the record ["bad"]. *)
Definition sendPicky : SendFn nat :=
  fun batch w =>
    if existsb (String.eqb "bad") batch
    then (ManagedSend.Failed ["bad record"], S w)
    else (ManagedSend.Sent, S w).

Definition jobName : Js.Value := Js.Str "customers/1/offlineUserDataJobs/2".

Definition googleAds : GoogleAds nat :=
  {| getUploadConversionAdjustmentFn := fun _ _ _ => sendPicky;
     createOfflineUserDataJob := fun _ w => (Ret jobName, S w);
     getAddOperationsToOfflineUserDataJobFn := fun _ _ => sendPicky;
     runOfflineUserDataJob := fun _ _ w => (Ret tt, S w) |}.

(** Job creation is refused. *)
Definition googleAdsNoJob : GoogleAds nat :=
  {| getUploadConversionAdjustmentFn := fun _ _ _ => sendPicky;
     createOfflineUserDataJob :=
       fun _ w => (Throw (Js.PlainError "job creation refused"), S w);
     getAddOperationsToOfflineUserDataJobFn := fun _ _ => sendPicky;
     runOfflineUserDataJob := fun _ _ w => (Ret tt, S w) |}.

(** The job is created and fed, and then does not start. *)
Definition googleAdsNoRun : GoogleAds nat :=
  {| getUploadConversionAdjustmentFn := fun _ _ _ => sendPicky;
     createOfflineUserDataJob := fun _ w => (Ret jobName, S w);
     getAddOperationsToOfflineUserDataJobFn := fun _ _ => sendPicky;
     runOfflineUserDataJob :=
       fun _ _ w => (Throw (Js.PlainError "job did not start"), S w) |}.

(** Three inline records, [a], [bad] and [c], one per line. *)
Definition threeRecords : string :=
  "a" ++ String ManagedSend.newline "bad" ++ String ManagedSend.newline "c".

Definition customerMatchJob : gmap string Js.Value :=
  {[ "type" := Js.Str "CUSTOMER_MATCH_USER_LIST" ]}.

Definition start : State nat :=
  {| world := 0; jobConfig := Js.Obj customerMatchJob; trace := []; logs := [] |}.

Definition config : GoogleAdsOfflineUserDataJobConfig.t :=
  {| GoogleAdsOfflineUserDataJobConfig.developerToken := "token";
     GoogleAdsOfflineUserDataJobConfig.recordsPerRequest := Some 2%Z;
     GoogleAdsOfflineUserDataJobConfig.qps := None;
     GoogleAdsOfflineUserDataJobConfig.secretName := None;
     GoogleAdsOfflineUserDataJobConfig.others := ∅ |}.

(** A configuration that asks for eight threads and gives no proper
    [recordsPerRequest] and no [qps]. *)
Definition eagerConfig : GoogleAdsOfflineUserDataJobConfig.t :=
  {| GoogleAdsOfflineUserDataJobConfig.developerToken := "token";
     GoogleAdsOfflineUserDataJobConfig.recordsPerRequest := Some (-5)%Z;
     GoogleAdsOfflineUserDataJobConfig.qps := None;
     GoogleAdsOfflineUserDataJobConfig.secretName := None;
     GoogleAdsOfflineUserDataJobConfig.others :=
       {[ "numberOfThreads" := Js.Num 8 ]} |}.

End Doubles.

(** ** Vocabulary of the statements on the Cloud Functions handler *)

(** The path of one function and of the collection of functions. *)
Definition functionPath (this : CloudFunctions.t) (functionName : string) : string :=
  "projects/" ++ CloudFunctions.projectId this ++ "/locations/" ++ CloudFunctions.locationId this
    ++ "/functions/" ++ functionName.

Definition functionsPath (this : CloudFunctions.t) : string :=
  "projects/" ++ CloudFunctions.projectId this ++ "/locations/" ++ CloudFunctions.locationId this
    ++ "/functions".

(** The response carries a name. *)
Definition carriesName (response : Js.Value) : bool :=
  match Js.member response "name" with
  | inr name => Js.truthy name
  | inl _ => false
  end.

(** The code of the error the response carries, if it carries one. *)
Definition errorCode (response : Js.Value) : option Js.Value :=
  match Js.member response "error" with
  | inr error =>
      match Js.member error "code" with
      | inr code => Some code
      | inl _ => None
      end
  | inl _ => None
  end.

Definition outcome {A : Type} (r : Js.Error + A) : Outcome A :=
  match r with
  | inl e => Throw e
  | inr a => Ret a
  end.

(** ** Test doubles for the Cloud Functions handler *)

Module CloudDoubles.
Import CloudFunctions.

Definition this : t := constructor "my-project" "europe-west1".

Definition errorResponse (code : float) : Js.Value :=
  Js.Obj {[ "error" := Js.Obj {[ "code" := Js.Num code ]} ]}.

Definition deployed : Js.Value :=
  Js.Obj {[ "name" :=
              Js.Str "projects/my-project/locations/europe-west1/functions/main" ]}.

Definition operation : Js.Value :=
  Js.Obj {[ "name" := Js.Str "operations/op-1" ]}.

(** A service on which the functions named in the world are deployed;
    every mutation answers with the operation [operations/op-1]. *)
Definition service : ApiBase (list string) :=
  {| get := fun path deployedPaths =>
       (Ret (if existsb (String.eqb path) deployedPaths
             then deployed else errorResponse 404),
        deployedPaths);
     mutate := fun path payload method deployedPaths =>
       (Ret operation, deployedPaths) |}.

(** A service that answers every read with an error of the given code. *)
Definition failing (code : float) : ApiBase (list string) :=
  {| get := fun path w => (Ret (errorResponse code), w);
     mutate := fun path payload method w => (Ret operation, w) |}.

Definition payloadProps : gmap string Js.Value :=
  {[ "runtime" := Js.Str "nodejs20" ]}.

Definition start (deployedPaths : list string) : State (list string) :=
  {| world := deployedPaths; payload := payloadProps;
     requests := []; console := [] |}.

End CloudDoubles.

(** ** Further vocabulary and test doubles *)

Definition isFetch (ev : Event) : bool :=
  match ev with LoadContent _ _ => true | _ => false end.

Definition isGet (r : CloudFunctions.Request) : bool :=
  match r with CloudFunctions.HttpGet _ => true | _ => false end.

(** How many calls of each kind a stretch of the trace may hold. *)
Definition lifecycle_counts (added : list Event) : Prop :=
  occurrences isListCreation added <= 1
  /\ occurrences isJobCreation added <= 1
  /\ occurrences isRunJob added <= occurrences isJobCreation added
  /\ (occurrences isJobCreation added = 0 -> occurrences isBatchSend added = 0).

Module MoreDoubles.

(** The message [{"bucket":"b","file":""}]. *)
Definition emptyKeyMessage : string :=
  "{" ++ Doubles.dq ++ "bucket" ++ Doubles.dq ++ ":" ++ Doubles.dq ++ "b"
      ++ Doubles.dq ++ "," ++ Doubles.dq ++ "file" ++ Doubles.dq ++ ":"
      ++ Doubles.dq ++ Doubles.dq ++ "}".

(** The message [{"file":"f"}]. *)
Definition keyOnlyMessage : string :=
  "{" ++ Doubles.dq ++ "file" ++ Doubles.dq ++ ":" ++ Doubles.dq ++ "f"
      ++ Doubles.dq ++ "}".

(** [JSON.parse] on some more messages: the JSON texts [null] and [123]
    and the two objects above. *)
Definition parse (text : string) : Js.Error + Js.Value :=
  if String.eqb text "null" then inr Js.Null
  else if String.eqb text "123" then inr (Js.Num 123)
  else if String.eqb text emptyKeyMessage then
    inr (Js.Obj {[ "bucket" := Js.Str "b"; "file" := Js.Str "" ]})
  else if String.eqb text keyOnlyMessage then
    inr (Js.Obj {[ "file" := Js.Str "f" ]})
  else Doubles.parse text.

(** Every stored object holds the three records of [Doubles.threeRecords]. *)
Definition loadFound (bucket file : Js.Value) : Remote nat string :=
  fun w => (Ret Doubles.threeRecords, S w).

Definition imports : Imports nat :=
  {| JSON_parse := parse;
     loadContent := loadFound;
     getProperValue := Doubles.properValue;
     getOrCreateUserList := Doubles.userList;
     clickConversionSpeedOptions := Doubles.speed |}.

(** The stored object does not exist and list creation is refused. *)
Definition importsNoList : Imports nat :=
  {| JSON_parse := Doubles.parse;
     loadContent := Doubles.loadMissing;
     getProperValue := Doubles.properValue;
     getOrCreateUserList := Doubles.noUserList;
     clickConversionSpeedOptions := Doubles.speed |}.

Definition storeSalesJob : gmap string Js.Value :=
  {[ "type" := Js.Str "STORE_SALES_UPLOAD_FIRST_PARTY" ]}.

Definition storeSalesStart : State nat :=
  {| world := 0; jobConfig := Js.Obj storeSalesJob; trace := []; logs := [] |}.

(** A job configuration without a [type]. *)
Definition untypedStart : State nat :=
  {| world := 0; jobConfig := Js.Obj {[ "customer_id" := Js.Str "1" ]};
     trace := []; logs := [] |}.

(** A job configuration that already names a list. *)
Definition relistedStart : State nat :=
  {| world := 0;
     jobConfig := Js.Obj {[ "type" := Js.Str "CUSTOMER_MATCH_USER_LIST";
                            "list_id" := Js.Str "old-list";
                            "customer_id" := Js.Str "1" ]};
     trace := []; logs := [] |}.

(** A service whose reads work and whose mutations are refused. *)
Definition readOnly : CloudFunctions.ApiBase (list string) :=
  {| CloudFunctions.get := CloudFunctions.get CloudDoubles.service;
     CloudFunctions.mutate := fun path payload method w =>
       (Throw (Js.PlainError "permission denied"), w) |}.

(** A service that cannot be reached. *)
Definition unreachable : CloudFunctions.ApiBase (list string) :=
  {| CloudFunctions.get := fun path w =>
       (Throw (Js.PlainError "network down"), w);
     CloudFunctions.mutate := fun path payload method w =>
       (Throw (Js.PlainError "network down"), w) |}.

End MoreDoubles.

(** * Properties *)

Example recordsOf_empty : ManagedSend.recordsOf "" = [].
Proof. reflexivity. Qed.

Example recordsOf_two :
  ManagedSend.recordsOf
    ("a" ++ String ManagedSend.newline "b" ++ String ManagedSend.newline "")
  = ["a"; "b"].
Proof. reflexivity. Qed.

Example partition_five :
  ManagedSend.partition 2 ["a"; "b"; "c"; "d"; "e"]
  = [["a"; "b"]; ["c"; "d"]; ["e"]].
Proof. reflexivity. Qed.

Example reference_run :
  let '(o, s) :=
    GoogleAdsOfflineUserDataJobUpload.sendDataInternal Doubles.imports
      Doubles.googleAds Doubles.referenceMessage "m-1" Doubles.config
      Doubles.start in
  o = Ret {| result := true; errors := [] |} /\ length (trace s) = 5.
Proof. vm_compute. split; reflexivity. Qed.

(** ** The Batch Partitioner *)

Section Partitioner.
Import ManagedSend.






End Partitioner.

(** ** Speed options of the offline user data job upload *)

(** C5. Whatever the configuration holds, [getSpeedOptions] answers
    [numberOfThreads = 1]; [recordsPerRequest] is the proper value of the
    configured one with default 100000 (capped), [qps] the proper value of
    the configured one with default 1 (not capped); so, when
    [getProperValue] gives the default for every value that is not proper,
    they are 100000 and 1 for such values. *)
Theorem getSpeedOptions_defaults {W : Type} (imports : Imports W)
    (config : GoogleAdsOfflineUserDataJobConfig.t) (proper : option Z -> bool) :
  (forall value defaultValue capped,
      proper value = false ->
      getProperValue imports value defaultValue capped = defaultValue) ->
  let options := GoogleAdsOfflineUserDataJobUpload.getSpeedOptions imports config in
  SpeedOptions.numberOfThreads options = 1%Z
  /\ SpeedOptions.recordsPerRequest options
     = getProperValue imports
         (GoogleAdsOfflineUserDataJobConfig.recordsPerRequest config) 100000 true
  /\ SpeedOptions.qps options
     = getProperValue imports
         (GoogleAdsOfflineUserDataJobConfig.qps config) 1 false
  /\ (proper (GoogleAdsOfflineUserDataJobConfig.recordsPerRequest config) = false ->
      SpeedOptions.recordsPerRequest options = 100000%Z)
  /\ (proper (GoogleAdsOfflineUserDataJobConfig.qps config) = false ->
      SpeedOptions.qps options = 1%Z).
Proof.
  intros Hdefault options. subst options.
  unfold GoogleAdsOfflineUserDataJobUpload.getSpeedOptions. simpl.
  repeat split.
  - intros Hr. apply Hdefault. exact Hr.
  - intros Hq. apply Hdefault. exact Hq.
Qed.

Lemma properValue_default (value : option Z) (defaultValue : Z) (capped : bool) :
  Doubles.isProper value = false ->
  Doubles.properValue value defaultValue capped = defaultValue.
Proof.
  destruct value as [v |]; simpl; [| reflexivity].
  intros ->. reflexivity.
Qed.

Lemma getSpeedOptions_defaults_witness :
  let options :=
    GoogleAdsOfflineUserDataJobUpload.getSpeedOptions Doubles.imports
      Doubles.eagerConfig in
  SpeedOptions.numberOfThreads options = 1%Z
  /\ SpeedOptions.recordsPerRequest options = 100000%Z
  /\ SpeedOptions.qps options = 1%Z.
Proof.
  pose proof (getSpeedOptions_defaults Doubles.imports Doubles.eagerConfig
                Doubles.isProper properValue_default)
    as (Ht & _ & _ & Hr & Hq).
  split; [exact Ht |]. split; [apply Hr | apply Hq]; reflexivity.
Defined.

(** ** The managed send on the state *)

Section ManagedSendFacts.
Context {W : Type}.

(** Sending the batches changes the world as [sendAll] says, appends one
    [BatchSend] per batch to the trace, in order, and never throws. *)
Lemma execute_eq (target : SendTarget) (send : SendFn W) :
  forall (batches : list ManagedSend.RecordBatch) (index : nat) (s : State W),
    execute target send index batches s
    = (Ret (fst (sendAll send index batches (world s))),
       {| world := snd (sendAll send index batches (world s));
          jobConfig := jobConfig s;
          trace := trace s ++ map (BatchSend target) batches;
          logs := logs s |}).
Proof.
  induction batches as [| batch rest IH]; intros index s.
  - simpl. unfold ret. rewrite app_nil_r. destruct s; reflexivity.
  - simpl. unfold bind at 1. unfold sendBatch.
    destruct (send batch (world s)) as [r w1] eqn:Hsend.
    unfold bind at 1. rewrite IH. simpl.
    destruct (sendAll send (S index) rest w1) as [outcomes w2].
    unfold ret. simpl. rewrite <- app_assoc. reflexivity.
Qed.

Lemma managedSend_eq (options : SpeedOptions.t) (target : SendTarget)
    (send : SendFn W) (records messageId : string) (s : State W) :
  let batches :=
    ManagedSend.partition (Z.to_nat (SpeedOptions.recordsPerRequest options))
                          (ManagedSend.recordsOf records) in
  managedSend options target send records messageId s
  = (Ret (ManagedSend.aggregate (fst (sendAll send 0 batches (world s)))),
     {| world := snd (sendAll send 0 batches (world s));
        jobConfig := jobConfig s;
        trace := trace s ++ map (BatchSend target) batches;
        logs := logs s |}).
Proof.
  intros batches. unfold managedSend, bind. fold batches.
  rewrite execute_eq. reflexivity.
Qed.

Lemma sendAll_length (send : SendFn W) :
  forall (batches : list ManagedSend.RecordBatch) (index : nat) (w : W),
    length (fst (sendAll send index batches w)) = length batches.
Proof.
  induction batches as [| batch rest IH]; intros index w; simpl; [reflexivity |].
  destruct (send batch w) as [r w1].
  specialize (IH (S index) w1).
  destruct (sendAll send (S index) rest w1) as [outcomes w2].
  simpl in *. rewrite IH. reflexivity.
Qed.

Lemma occurrences_app (p : Event -> bool) (l1 l2 : list Event) :
  occurrences p (l1 ++ l2) = occurrences p l1 + occurrences p l2.
Proof. unfold occurrences. rewrite List.filter_app, length_app. reflexivity. Qed.

Lemma occurrences_sends (p : Event -> bool) (target : SendTarget)
    (batches : list ManagedSend.RecordBatch) :
  (forall batch, p (BatchSend target batch) = false) ->
  occurrences p (map (BatchSend target) batches) = 0.
Proof.
  intros Hp. unfold occurrences.
  induction batches as [| batch rest IH]; simpl; [reflexivity |].
  rewrite Hp. exact IH.
Qed.

Lemma occurrences_all_sends (target : SendTarget)
    (batches : list ManagedSend.RecordBatch) :
  occurrences isBatchSend (map (BatchSend target) batches) = length batches.
Proof.
  unfold occurrences.
  induction batches as [| batch rest IH]; simpl; [reflexivity |].
  rewrite IH. reflexivity.
Qed.

End ManagedSendFacts.

(** ** The conversion adjustments upload *)

(** C7. For every records string, message id and configuration, the upload
    of conversion adjustments is the managed send applied to the configured
    upload function over the given records: it returns the aggregate of the
    batch outcomes, and the remote calls it adds to the trace are the batch
    sends of the managed send, one per batch in batch order, nothing before
    them and nothing after. *)
Theorem adjustment_upload_is_managed_send {W : Type} (imports : Imports W)
    (googleAds : GoogleAds W) (records messageId : string)
    (config : GoogleAdsConversionConfig.t) (s : State W) :
  let target :=
    ConversionAdjustments (GoogleAdsConversionConfig.customerId config)
      (GoogleAdsConversionConfig.loginCustomerId config)
      (GoogleAdsConversionConfig.adsConfig config) in
  let configuredUpload :=
    getUploadConversionAdjustmentFn googleAds
      (GoogleAdsConversionConfig.customerId config)
      (GoogleAdsConversionConfig.loginCustomerId config)
      (GoogleAdsConversionConfig.adsConfig config) in
  let batches :=
    ManagedSend.partition
      (Z.to_nat (SpeedOptions.recordsPerRequest
                   (clickConversionSpeedOptions imports config)))
      (ManagedSend.recordsOf records) in
  let run :=
    GoogleAdsConversionAdjustment.sendDataInternal imports googleAds records
      messageId config s in
  run = GoogleAdsConversionAdjustment.getManagedSendFn imports config target
          configuredUpload records messageId s
  /\ fst run
     = Ret (ManagedSend.aggregate
              (fst (sendAll configuredUpload 0 batches (world s))))
  /\ trace (snd run) = (trace s ++ map (BatchSend target) batches)%list
  /\ occurrences isBatchSend (map (BatchSend target) batches) = length batches
  /\ jobConfig (snd run) = jobConfig s.
Proof.
  intros target configuredUpload batches run.
  split; [reflexivity |].
  subst run. unfold GoogleAdsConversionAdjustment.sendDataInternal,
    GoogleAdsConversionAdjustment.getManagedSendFn,
    GoogleAdsConversionAdjustment.getSpeedOptions.
  rewrite managedSend_eq. simpl.
  repeat split. apply occurrences_all_sends.
Qed.

Example adjustment_upload_run :
  let run :=
    GoogleAdsConversionAdjustment.sendDataInternal Doubles.imports
      Doubles.googleAds
      ("a" ++ String ManagedSend.newline "bad" ++ String ManagedSend.newline "c")
      "m-1"
      {| GoogleAdsConversionConfig.customerId := Js.Str "1";
         GoogleAdsConversionConfig.loginCustomerId := Js.Undefined;
         GoogleAdsConversionConfig.adsConfig := Js.Obj ∅;
         GoogleAdsConversionConfig.recordsPerRequest := Some 2%Z;
         GoogleAdsConversionConfig.numberOfThreads := None;
         GoogleAdsConversionConfig.qps := None |}
      Doubles.start in
  fst run = Ret {| result := false; errors := ["bad record"] |}
  /\ trace (snd run)
     = [BatchSend (ConversionAdjustments (Js.Str "1") Js.Undefined (Js.Obj ∅))
          ["a"; "bad"];
        BatchSend (ConversionAdjustments (Js.Str "1") Js.Undefined (Js.Obj ∅))
          ["c"]].
Proof. vm_compute. split; reflexivity. Qed.

(** ** Source resolution of the offline user data job upload *)

Section SourceResolution.
Context {W : Type} (imports : Imports W).
Import GoogleAdsOfflineUserDataJobUpload.

(** A message that parses to a value with a falsy [file] (absent, [null],
    empty, ...) is answered at once. *)
Lemma resolveRecords_no_file (message : string) (parsed bucket file : Js.Value)
    (s : State W) :
  JSON_parse imports message = inr parsed ->
  Js.member parsed "bucket" = inr bucket ->
  Js.member parsed "file" = inr file ->
  Js.truthy file = false ->
  resolveRecords imports message s
  = (Ret (inl {| result := false;
                 errors := ["Could find GCS infomation in message: " ++ message] |}),
     {| world := world s; jobConfig := jobConfig s; trace := trace s;
        logs := logs s ++ [(Error, "Could find GCS infomation in message",
                            LogText message)] |}).
Proof.
  intros Hparse Hbucket Hfile Hfalsy.
  unfold resolveRecords, try_catch, bind.
  rewrite Hparse. simpl. rewrite Hbucket. simpl. rewrite Hfile. simpl.
  rewrite Hfalsy. reflexivity.
Qed.

(** A message that does not parse is the record data itself. *)
Lemma resolveRecords_inline (message : string) (e : Js.Error) (s : State W) :
  JSON_parse imports message = inl e ->
  resolveRecords imports message s
  = (Ret (inr message),
     {| world := world s; jobConfig := jobConfig s; trace := trace s;
        logs := logs s ++ [(Error, "Incoming message: ", LogText message)] |}).
Proof.
  intros Hparse. unfold resolveRecords, try_catch, bind.
  rewrite Hparse. reflexivity.
Qed.

(** A reference with an object key is fetched; the content is the record
    data when the fetch returns, the message itself when the fetch throws. *)
Lemma resolveRecords_reference (message : string) (parsed bucket file : Js.Value)
    (s : State W) :
  JSON_parse imports message = inr parsed ->
  Js.member parsed "bucket" = inr bucket ->
  Js.member parsed "file" = inr file ->
  Js.truthy file = true ->
  resolveRecords imports message s
  = match loadContent imports bucket file (world s) with
    | (Ret content, w) =>
        (Ret (inr content),
         {| world := w; jobConfig := jobConfig s;
            trace := trace s ++ [LoadContent bucket file]; logs := logs s |})
    | (Throw _, w) =>
        (Ret (inr message),
         {| world := w; jobConfig := jobConfig s;
            trace := trace s ++ [LoadContent bucket file];
            logs := logs s ++ [(Error, "Incoming message: ", LogText message)] |})
    end.
Proof.
  intros Hparse Hbucket Hfile Htruthy.
  unfold resolveRecords, try_catch, bind.
  rewrite Hparse. simpl. rewrite Hbucket. simpl. rewrite Hfile. simpl.
  rewrite Htruthy. unfold call.
  destruct (loadContent imports bucket file (world s)) as [[content | e] w];
    reflexivity.
Qed.

(** Source resolution never throws. *)
Lemma resolveRecords_returns (message : string) (s : State W) :
  exists source, fst (resolveRecords imports message s) = Ret source.
Proof.
  unfold resolveRecords, try_catch, bind.
  destruct (JSON_parse imports message) as [e | parsed]; simpl; [eauto |].
  destruct (Js.member parsed "bucket") as [e | bucket]; simpl; [eauto |].
  destruct (Js.member parsed "file") as [e | file]; simpl; [eauto |].
  destruct (Js.truthy file); simpl; [| eauto].
  unfold call.
  destruct (loadContent imports bucket file (world s)) as [[content | e] w];
    simpl; eauto.
Qed.

(** C2. For every message that parses as a JSON object without a [file]
    field, [sendDataInternal] returns a [BatchResult] with [result = false]
    and a single error message, and it leaves the outside world and the
    trace of remote calls as they were: no fetch, no batch send, no job; the
    message is not taken for inline data. *)
Theorem malformed_reference_fails (googleAds : GoogleAds W)
    (message messageId : string) (config : GoogleAdsOfflineUserDataJobConfig.t)
    (s : State W) (props : gmap string Js.Value) :
  JSON_parse imports message = inr (Js.Obj props) ->
  props !! "file" = None ->
  let run := sendDataInternal imports googleAds message messageId config s in
  (exists text, fst run = Ret {| result := false; errors := [text] |})
  /\ world (snd run) = world s
  /\ trace (snd run) = trace s
  /\ occurrences isBatchSend (trace (snd run)) = occurrences isBatchSend (trace s)
  /\ occurrences isJobCreation (trace (snd run)) = occurrences isJobCreation (trace s)
  /\ jobConfig (snd run) = jobConfig s.
Proof.
  intros Hparse Hfile run. subst run.
  unfold sendDataInternal, bind.
  erewrite resolveRecords_no_file; [| exact Hparse | reflexivity | reflexivity |].
  - simpl. repeat split. eexists. reflexivity.
  - rewrite Hfile. reflexivity.
Qed.

(** The first [try] is wider than the parse it was written for.  For every
    message that parses as a JSON object with a truthy [file], if the fetch
    of the stored object throws, the first [catch] takes the exception: the
    fetch is in the trace, the incoming message is logged, and the upload
    goes on with the text of the reference as the record data. *)
Theorem fetch_failure_falls_back_to_message (googleAds : GoogleAds W)
    (message messageId : string) (config : GoogleAdsOfflineUserDataJobConfig.t)
    (s : State W) (props : gmap string Js.Value) (file : Js.Value)
    (e : Js.Error) (w : W) :
  JSON_parse imports message = inr (Js.Obj props) ->
  props !! "file" = Some file ->
  Js.truthy file = true ->
  loadContent imports (default Js.Undefined (props !! "bucket")) file (world s)
  = (Throw e, w) ->
  sendDataInternal imports googleAds message messageId config s
  = try_catch (uploadToJob imports googleAds message messageId config)
              uploadFailed
      {| world := w; jobConfig := jobConfig s;
         trace := trace s
                  ++ [LoadContent (default Js.Undefined (props !! "bucket")) file];
         logs := logs s ++ [(Error, "Incoming message: ", LogText message)] |}.
Proof.
  intros Hparse Hfile Htruthy Hload.
  unfold sendDataInternal, bind.
  assert (Hmember : Js.member (Js.Obj props) "file" = inr file)
    by (simpl; rewrite Hfile; reflexivity).
  rewrite (resolveRecords_reference message (Js.Obj props)
             (default Js.Undefined (props !! "bucket")) file s
             Hparse eq_refl Hmember Htruthy).
  rewrite Hload. reflexivity.
Qed.

End SourceResolution.

Lemma malformed_reference_fails_witness :
  let run :=
    GoogleAdsOfflineUserDataJobUpload.sendDataInternal Doubles.imports
      Doubles.googleAds Doubles.bucketOnlyMessage "m-1" Doubles.config
      Doubles.start in
  (exists text, fst run = Ret {| result := false; errors := [text] |})
  /\ world (snd run) = world Doubles.start
  /\ trace (snd run) = trace Doubles.start
  /\ occurrences isBatchSend (trace (snd run))
     = occurrences isBatchSend (trace Doubles.start)
  /\ occurrences isJobCreation (trace (snd run))
     = occurrences isJobCreation (trace Doubles.start)
  /\ jobConfig (snd run) = jobConfig Doubles.start.
Proof.
  apply (malformed_reference_fails Doubles.imports Doubles.googleAds
           Doubles.bucketOnlyMessage "m-1" Doubles.config Doubles.start
           {[ "bucket" := Js.Str "b" ]}).
  - vm_compute. reflexivity.
  - vm_compute. reflexivity.
Defined.

Lemma fetch_failure_falls_back_to_message_witness :
  GoogleAdsOfflineUserDataJobUpload.sendDataInternal Doubles.imports
    Doubles.googleAds Doubles.referenceMessage "m-1" Doubles.config Doubles.start
  = try_catch
      (GoogleAdsOfflineUserDataJobUpload.uploadToJob Doubles.imports
         Doubles.googleAds Doubles.referenceMessage "m-1" Doubles.config)
      GoogleAdsOfflineUserDataJobUpload.uploadFailed
      {| world := 1; jobConfig := jobConfig Doubles.start;
         trace := trace Doubles.start
                  ++ [LoadContent
                        (default Js.Undefined
                           (({[ "bucket" := Js.Str "b"; "file" := Js.Str "f" ]}
                              : gmap string Js.Value) !! "bucket"))
                        (Js.Str "f")];
         logs := logs Doubles.start
                 ++ [(Error, "Incoming message: ",
                      LogText Doubles.referenceMessage)] |}.
Proof.
  apply (fetch_failure_falls_back_to_message Doubles.imports Doubles.googleAds
           Doubles.referenceMessage "m-1" Doubles.config Doubles.start
           {[ "bucket" := Js.Str "b"; "file" := Js.Str "f" ]} (Js.Str "f")
           (Js.PlainError "No such object") 1).
  - vm_compute. reflexivity.
  - vm_compute. reflexivity.
  - reflexivity.
  - vm_compute. reflexivity.
Defined.

(** C1, at the failing input.  The message [{"bucket":"b","file":"f"}]
    parses as a reference with an object key and the fetch throws; the
    failure does not reach [getResultFromError]: the upload returns a
    successful [BatchResult], having sent the text of the reference as the
    one record of the one batch. *)
Lemma fetch_failure_is_recovered :
  let run :=
    GoogleAdsOfflineUserDataJobUpload.sendDataInternal Doubles.imports
      Doubles.googleAds Doubles.referenceMessage "m-1" Doubles.config
      Doubles.start in
  let job := Js.Obj (<["list_id" := Js.Str "list-7"]> Doubles.customerMatchJob) in
  JSON_parse Doubles.imports Doubles.referenceMessage
  = inr (Js.Obj {[ "bucket" := Js.Str "b"; "file" := Js.Str "f" ]})
  /\ fst (loadContent Doubles.imports (Js.Str "b") (Js.Str "f")
            (world Doubles.start))
     = Throw (Js.PlainError "No such object")
  /\ fst run = Ret {| result := true; errors := [] |}
  /\ fst run <> Ret (getResultFromError (Js.PlainError "No such object"))
  /\ trace (snd run)
     = [LoadContent (Js.Str "b") (Js.Str "f");
        GetOrCreateUserList (Js.Obj Doubles.customerMatchJob);
        CreateOfflineUserDataJob job;
        BatchSend (OfflineUserDataJobOperations job Doubles.jobName)
                  [Doubles.referenceMessage];
        RunOfflineUserDataJob job Doubles.jobName].
Proof.
  vm_compute. repeat split; try reflexivity. discriminate.
Qed.

(** C6, on the message [{}]. The one error of the failed [BatchResult] is
    the text below: it reads "Could find", the word "not" occurs nowhere in
    it, so the text does not say that the storage information could not be
    found. *)
Theorem missing_key_error_text :
  let run :=
    GoogleAdsOfflineUserDataJobUpload.sendDataInternal Doubles.imports
      Doubles.googleAds "{}" "m-1" Doubles.config Doubles.start in
  JSON_parse Doubles.imports "{}" = inr (Js.Obj ∅)
  /\ fst run
     = Ret {| result := false;
              errors := ["Could find GCS infomation in message: {}"] |}
  /\ occursIn "not" "Could find GCS infomation in message: {}" = false
  /\ occursIn "Could find GCS" "Could find GCS infomation in message: {}" = true.
Proof.
  vm_compute. repeat split; reflexivity.
Qed.

(** ** The job lifecycle of the offline user data job upload *)

Section JobLifecycle.
Context {W : Type} (imports : Imports W).
Import GoogleAdsOfflineUserDataJobUpload.

(** The block of the second [try], step by step, for a job type that
    starts with [CUSTOMER_MATCH]. *)
Lemma uploadToJob_customer_match (googleAds : GoogleAds W)
    (records messageId : string) (config : GoogleAdsOfflineUserDataJobConfig.t)
    (s : State W) (props : gmap string Js.Value) (type : string) :
  jobConfig s = Js.Obj props ->
  props !! "type" = Some (Js.Str type) ->
  String.prefix "CUSTOMER_MATCH" type = true ->
  uploadToJob imports googleAds records messageId config s
  = match getOrCreateUserList imports googleAds (Js.Obj props) (world s) with
    | (Throw e, w1) =>
        (Throw e,
         {| world := w1; jobConfig := Js.Obj props;
            trace := trace s ++ [GetOrCreateUserList (Js.Obj props)];
            logs := logs s |})
    | (Ret listId, w1) =>
        let job := Js.Obj (<["list_id" := listId]> props) in
        match createOfflineUserDataJob googleAds job w1 with
        | (Throw e, w2) =>
            (Throw e,
             {| world := w2; jobConfig := job;
                trace := trace s ++ [GetOrCreateUserList (Js.Obj props);
                                     CreateOfflineUserDataJob job];
                logs := logs s |})
        | (Ret name, w2) =>
            let target := OfflineUserDataJobOperations job name in
            let sent :=
              sendAll (getAddOperationsToOfflineUserDataJobFn googleAds job name)
                      0 (batchesOf imports config records) w2 in
            let ran := runOfflineUserDataJob googleAds job name (snd sent) in
            (match fst ran with
             | Ret _ => Ret (ManagedSend.aggregate (fst sent))
             | Throw e => Throw e
             end,
             {| world := snd ran; jobConfig := job;
                trace := trace s ++ [GetOrCreateUserList (Js.Obj props);
                                     CreateOfflineUserDataJob job]
                         ++ map (BatchSend target) (batchesOf imports config records)
                         ++ [RunOfflineUserDataJob job name];
                logs := logs s
                        ++ [(Info, "jobResourceName: ", LogValue name);
                            (Info, "add userdata result: ",
                             LogResult (ManagedSend.aggregate (fst sent)))] |})
        end
    end.
Proof.
  intros Hjob Htype Hprefix.
  destruct s as [w0 cfg tr lg]. simpl in Hjob. subst cfg.
  unfold uploadToJob, bind, gets. simpl. rewrite Htype. simpl.
  rewrite Hprefix. unfold call at 1. simpl.
  destruct (getOrCreateUserList imports googleAds (Js.Obj props) w0)
    as [[listId | e] w1]; [| reflexivity].
  unfold assignListId, modify. simpl. unfold call at 1. simpl.
  destruct (createOfflineUserDataJob googleAds
              (Js.Obj (<["list_id" := listId]> props)) w1)
    as [[name | e] w2]; [| rewrite <- app_assoc; reflexivity].
  unfold getManagedSendFn. rewrite managedSend_eq.
  unfold batchesOf, call. simpl.
  match goal with
  | |- context [runOfflineUserDataJob ?g ?c ?n ?w] =>
      destruct (runOfflineUserDataJob g c n w) as [[[] | e] w4]
  end; simpl; unfold ret; repeat rewrite <- app_assoc; reflexivity.
Qed.


(** Whatever the block of the second [try] throws, the [catch] turns into
    the result of [getResultFromError]; nothing is thrown further. *)
Lemma upload_catch (googleAds : GoogleAds W) (records messageId : string)
    (config : GoogleAdsOfflineUserDataJobConfig.t) (s : State W) :
  let block := uploadToJob imports googleAds records messageId config s in
  let run :=
    try_catch (uploadToJob imports googleAds records messageId config)
              uploadFailed s in
  trace (snd run) = trace (snd block)
  /\ jobConfig (snd run) = jobConfig (snd block)
  /\ world (snd run) = world (snd block)
  /\ fst run = match fst block with
               | Ret r => Ret r
               | Throw e => Ret (getResultFromError e)
               end.
Proof.
  intros block run. subst block run. unfold try_catch.
  destruct (uploadToJob imports googleAds records messageId config s)
    as [[r | e] s']; simpl; repeat split; reflexivity.
Qed.

Lemma sendDataInternal_resolved (googleAds : GoogleAds W)
    (message messageId : string) (config : GoogleAdsOfflineUserDataJobConfig.t)
    (s s1 : State W) (records : string) :
  resolveRecords imports message s = (Ret (inr records), s1) ->
  sendDataInternal imports googleAds message messageId config s
  = try_catch (uploadToJob imports googleAds records messageId config)
              uploadFailed s1.
Proof.
  intros Hresolve. unfold sendDataInternal, bind. rewrite Hresolve. reflexivity.
Qed.

(** C3. In an upload whose job type starts with [CUSTOMER_MATCH] (and whose
    source resolved to records), the remote calls after source resolution
    are: the list creation, once and first; then, if it returned, the job
    creation with the list identifier assigned into the configuration; then,
    if that returned, one send per batch and after them the run-job command,
    once, whatever the batch sends answered, the result reporting their
    failures.  If list creation or job creation throws, the trace ends with
    that call: no run-job command is issued. *)
Theorem job_lifecycle_order (googleAds : GoogleAds W)
    (message messageId : string) (config : GoogleAdsOfflineUserDataJobConfig.t)
    (s s1 : State W) (records : string) (props : gmap string Js.Value)
    (type : string) :
  resolveRecords imports message s = (Ret (inr records), s1) ->
  jobConfig s1 = Js.Obj props ->
  props !! "type" = Some (Js.Str type) ->
  String.prefix "CUSTOMER_MATCH" type = true ->
  let run := sendDataInternal imports googleAds message messageId config s in
  let listCall := GetOrCreateUserList (Js.Obj props) in
  (forall e w1,
      getOrCreateUserList imports googleAds (Js.Obj props) (world s1)
      = (Throw e, w1) ->
      trace (snd run) = (trace s1 ++ [listCall])%list
      /\ occurrences isRunJob [listCall] = 0
      /\ fst run = Ret (getResultFromError e))
  /\ (forall listId w1,
      getOrCreateUserList imports googleAds (Js.Obj props) (world s1)
      = (Ret listId, w1) ->
      let job := Js.Obj (<["list_id" := listId]> props) in
      jobConfig (snd run) = job
      /\ (forall e w2,
          createOfflineUserDataJob googleAds job w1 = (Throw e, w2) ->
          trace (snd run)
          = (trace s1 ++ [listCall; CreateOfflineUserDataJob job])%list
          /\ occurrences isRunJob [listCall; CreateOfflineUserDataJob job] = 0
          /\ fst run = Ret (getResultFromError e))
      /\ (forall name w2,
          createOfflineUserDataJob googleAds job w1 = (Ret name, w2) ->
          let batches := batchesOf imports config records in
          let sent :=
            sendAll (getAddOperationsToOfflineUserDataJobFn googleAds job name)
                    0 batches w2 in
          let calls :=
            ([listCall; CreateOfflineUserDataJob job]
             ++ map (BatchSend (OfflineUserDataJobOperations job name)) batches
             ++ [RunOfflineUserDataJob job name])%list in
          trace (snd run) = (trace s1 ++ calls)%list
          /\ occurrences isListCreation calls = 1
          /\ occurrences isJobCreation calls = 1
          /\ occurrences isBatchSend calls = length batches
          /\ occurrences isRunJob calls = 1
          /\ (forall w3,
              runOfflineUserDataJob googleAds job name (snd sent) = (Ret tt, w3) ->
              fst run = Ret (ManagedSend.aggregate (fst sent))))).
Proof.
  intros Hresolve Hjob Htype Hprefix run listCall.
  subst run.
  rewrite (sendDataInternal_resolved googleAds message messageId config s s1
             records Hresolve).
  destruct (upload_catch googleAds records messageId config s1)
    as (Htrace & Hconfig & _ & Hfst).
  cbv zeta in Htrace, Hconfig, Hfst. rewrite Htrace, Hconfig, Hfst.
  rewrite (uploadToJob_customer_match googleAds records messageId config s1
             props type Hjob Htype Hprefix).
  split.
  - intros e w1 Hlist. rewrite Hlist. simpl. repeat split.
  - intros listId w1 Hlist job. rewrite Hlist. cbv zeta. fold job.
    split; [| split].
    + destruct (createOfflineUserDataJob googleAds job w1) as [[name | e] w2];
        reflexivity.
    + intros e w2 Hcreate. rewrite Hcreate. simpl. repeat split.
    + intros name w2 Hcreate. rewrite Hcreate. simpl.
      split; [reflexivity |].
      change (?a :: ?b :: ?l ++ ?r)%list with ([a; b] ++ l ++ r)%list.
      repeat rewrite occurrences_app.
      rewrite occurrences_all_sends.
      rewrite !occurrences_sends by reflexivity.
      repeat split.
      * unfold occurrences; simpl; lia.
      * intros w3 Hrun. rewrite Hrun. reflexivity.
Qed.

End JobLifecycle.

Lemma job_lifecycle_order_witness :
  let run :=
    GoogleAdsOfflineUserDataJobUpload.sendDataInternal Doubles.imports
      Doubles.googleAds Doubles.threeRecords "m-1" Doubles.config
      Doubles.start in
  let job := Js.Obj (<["list_id" := Js.Str "list-7"]> Doubles.customerMatchJob) in
  let target := OfflineUserDataJobOperations job Doubles.jobName in
  trace (snd run)
  = [GetOrCreateUserList (Js.Obj Doubles.customerMatchJob);
     CreateOfflineUserDataJob job;
     BatchSend target ["a"; "bad"];
     BatchSend target ["c"];
     RunOfflineUserDataJob job Doubles.jobName]
  /\ fst run = Ret {| result := false; errors := ["bad record"] |}.
Proof.
  assert (Hresolve :
    GoogleAdsOfflineUserDataJobUpload.resolveRecords Doubles.imports
      Doubles.threeRecords Doubles.start
    = (Ret (inr Doubles.threeRecords),
       {| world := 0; jobConfig := Js.Obj Doubles.customerMatchJob;
          trace := [];
          logs := [(Error, "Incoming message: ",
                    LogText Doubles.threeRecords)] |}))
    by (vm_compute; reflexivity).
  assert (Htype : Doubles.customerMatchJob !! "type"
                  = Some (Js.Str "CUSTOMER_MATCH_USER_LIST"))
    by (vm_compute; reflexivity).
  destruct (job_lifecycle_order Doubles.imports Doubles.googleAds
              Doubles.threeRecords "m-1" Doubles.config Doubles.start _
              Doubles.threeRecords Doubles.customerMatchJob
              "CUSTOMER_MATCH_USER_LIST" Hresolve eq_refl Htype eq_refl)
    as [_ Hreturned].
  destruct (Hreturned (Js.Str "list-7") 1 eq_refl) as (_ & _ & Hcreated).
  destruct (Hcreated Doubles.jobName 2 eq_refl)
    as (Htrace & _ & _ & _ & _ & Hrun).
  split.
  - etransitivity; [exact Htrace |]. vm_compute. reflexivity.
  - etransitivity; [apply (Hrun 5); vm_compute; reflexivity |].
    vm_compute. reflexivity.
Defined.

(** ** Exceptions of the offline user data job upload *)

Section Exceptions.
Context {W : Type} (imports : Imports W).
Import GoogleAdsOfflineUserDataJobUpload.

(** X15. [sendDataInternal] never throws.  What the block of the second
    [try] throws (list creation, job creation, the run-job command) is
    caught and becomes the result of [getResultFromError], a failed
    [BatchResult] with a single message.  A message that does not parse is
    inline data: the upload goes on with the message as the record data. *)
Theorem upload_exceptions_are_caught (googleAds : GoogleAds W)
    (message messageId : string) (config : GoogleAdsOfflineUserDataJobConfig.t)
    (s : State W) :
  let run := sendDataInternal imports googleAds message messageId config s in
  (exists r, fst run = Ret r)
  /\ (forall records s1,
      resolveRecords imports message s = (Ret (inr records), s1) ->
      (forall e s2,
          uploadToJob imports googleAds records messageId config s1
          = (Throw e, s2) ->
          fst run = Ret (getResultFromError e))
      /\ (forall props type,
          jobConfig s1 = Js.Obj props ->
          props !! "type" = Some (Js.Str type) ->
          String.prefix "CUSTOMER_MATCH" type = true ->
          (forall e w1,
              getOrCreateUserList imports googleAds (Js.Obj props) (world s1)
              = (Throw e, w1) ->
              fst run = Ret (getResultFromError e))
          /\ (forall listId w1,
              getOrCreateUserList imports googleAds (Js.Obj props) (world s1)
              = (Ret listId, w1) ->
              let job := Js.Obj (<["list_id" := listId]> props) in
              (forall e w2,
                  createOfflineUserDataJob googleAds job w1 = (Throw e, w2) ->
                  fst run = Ret (getResultFromError e))
              /\ (forall name w2 e w3,
                  createOfflineUserDataJob googleAds job w1 = (Ret name, w2) ->
                  runOfflineUserDataJob googleAds job name
                    (snd (sendAll
                            (getAddOperationsToOfflineUserDataJobFn googleAds
                               job name)
                            0 (batchesOf imports config records) w2))
                  = (Throw e, w3) ->
                  fst run = Ret (getResultFromError e)))))
  /\ (forall e,
      result (getResultFromError e) = false
      /\ exists text, errors (getResultFromError e) = [text])
  /\ (forall e,
      JSON_parse imports message = inl e ->
      run = try_catch (uploadToJob imports googleAds message messageId config)
              uploadFailed
              {| world := world s; jobConfig := jobConfig s; trace := trace s;
                 logs := logs s ++ [(Error, "Incoming message: ",
                                     LogText message)] |}).
Proof.
  intros run. subst run.
  split; [| split; [| split]].
  - unfold sendDataInternal, bind.
    destruct (resolveRecords_returns imports message s) as [source Hsource].
    destruct (resolveRecords imports message s) as [o s1]. simpl in Hsource.
    subst o. destruct source as [failed | records]; [eexists; reflexivity |].
    unfold try_catch.
    destruct (uploadToJob imports googleAds records messageId config s1)
      as [[r | e] s2]; eexists; reflexivity.
  - intros records s1 Hresolve.
    rewrite (sendDataInternal_resolved imports googleAds message messageId
               config s s1 records Hresolve).
    destruct (upload_catch imports googleAds records messageId config s1)
      as (_ & _ & _ & Hfst).
    cbv zeta in Hfst. rewrite Hfst. clear Hfst.
    split.
    + intros e s2 Hblock. rewrite Hblock. reflexivity.
    + intros props type Hjob Htype Hprefix.
      rewrite (uploadToJob_customer_match imports googleAds records messageId
                 config s1 props type Hjob Htype Hprefix).
      split.
      * intros e w1 Hlist. rewrite Hlist. reflexivity.
      * intros listId w1 Hlist job. rewrite Hlist. cbv zeta. fold job.
        split.
        -- intros e w2 Hcreate. rewrite Hcreate. reflexivity.
        -- intros name w2 e w3 Hcreate Hrun. rewrite Hcreate. simpl.
           rewrite Hrun. reflexivity.
  - intros e. split; [reflexivity | eexists; reflexivity].
  - intros e Hparse. unfold sendDataInternal, bind.
    rewrite (resolveRecords_inline imports message e s Hparse). reflexivity.
Qed.

End Exceptions.

Lemma upload_exceptions_are_caught_witness :
  fst (GoogleAdsOfflineUserDataJobUpload.sendDataInternal Doubles.imports
         Doubles.googleAdsNoRun Doubles.threeRecords "m-1" Doubles.config
         Doubles.start)
  = Ret {| result := false; errors := ["job did not start"] |}.
Proof.
  assert (Hresolve :
    GoogleAdsOfflineUserDataJobUpload.resolveRecords Doubles.imports
      Doubles.threeRecords Doubles.start
    = (Ret (inr Doubles.threeRecords),
       {| world := 0; jobConfig := Js.Obj Doubles.customerMatchJob;
          trace := [];
          logs := [(Error, "Incoming message: ",
                    LogText Doubles.threeRecords)] |}))
    by (vm_compute; reflexivity).
  assert (Htype : Doubles.customerMatchJob !! "type"
                  = Some (Js.Str "CUSTOMER_MATCH_USER_LIST"))
    by (vm_compute; reflexivity).
  destruct (upload_exceptions_are_caught Doubles.imports Doubles.googleAdsNoRun
              Doubles.threeRecords "m-1" Doubles.config Doubles.start)
    as (_ & Hcaught & _ & _).
  destruct (Hcaught _ _ Hresolve) as [_ Hsteps].
  destruct (Hsteps Doubles.customerMatchJob "CUSTOMER_MATCH_USER_LIST"
              eq_refl Htype eq_refl) as [_ Hlisted].
  destruct (Hlisted (Js.Str "list-7") 1 eq_refl) as [_ Hrun].
  etransitivity.
  - apply (Hrun Doubles.jobName 2 (Js.PlainError "job did not start") 5 eq_refl).
    vm_compute. reflexivity.
  - reflexivity.
Defined.

(** C4, at the failing input.  On the message [{"bucket":"b","file":"f"}]
    the fetch of source resolution throws.  The exception is caught, but it
    is not converted into a failed [BatchResult]: the upload returns a
    successful one, after creating the list and the job, sending the text of
    the reference as a record and running the job.  On the same message an
    exception of list creation is converted, as the claim says. *)
Theorem fetch_exception_is_not_converted :
  let run :=
    GoogleAdsOfflineUserDataJobUpload.sendDataInternal Doubles.imports
      Doubles.googleAds Doubles.referenceMessage "m-2" Doubles.config
      Doubles.start in
  let refused :=
    GoogleAdsOfflineUserDataJobUpload.sendDataInternal
      MoreDoubles.importsNoList Doubles.googleAds Doubles.referenceMessage
      "m-2" Doubles.config Doubles.start in
  loadContent Doubles.imports (Js.Str "b") (Js.Str "f") (world Doubles.start)
  = (Throw (Js.PlainError "No such object"), 1)
  /\ fst run = Ret {| result := true; errors := [] |}
  /\ (forall e, fst run <> Ret (getResultFromError e))
  /\ occurrences isFetch (trace (snd run)) = 1
  /\ occurrences isJobCreation (trace (snd run)) = 1
  /\ occurrences isBatchSend (trace (snd run)) = 1
  /\ occurrences isRunJob (trace (snd run)) = 1
  /\ fst refused
     = Ret (getResultFromError (Js.PlainError "list creation refused"))
  /\ occurrences isJobCreation (trace (snd refused)) = 0.
Proof.
  vm_compute. repeat split; try reflexivity. intros e. discriminate.
Qed.

(** ** Cloud Functions: existence of a function *)

Example exist_deployed :
  fst (CloudFunctions.exist CloudDoubles.service CloudDoubles.this "main"
         (CloudDoubles.start
            ["projects/my-project/locations/europe-west1/functions/main"]))
  = Ret true.
Proof. vm_compute. reflexivity. Qed.

Example exist_absent :
  fst (CloudFunctions.exist CloudDoubles.service CloudDoubles.this "main"
         (CloudDoubles.start []))
  = Ret false.
Proof. vm_compute. reflexivity. Qed.

Example exist_forbidden :
  fst (CloudFunctions.exist (CloudDoubles.failing 403) CloudDoubles.this "main"
         (CloudDoubles.start []))
  = Throw (Js.PlainError "Unknown status of Cloud Functions main").
Proof. vm_compute. reflexivity. Qed.

Section CloudFunctionsFacts.
Context {W : Type} (super : CloudFunctions.ApiBase W).
Import CloudFunctions.

(** [exist] sends one read of the function and nothing else; it leaves
    the payload of the caller alone. *)
Lemma exist_state (this : t) (functionName : string) (s : State W) :
  let run := exist super this functionName s in
  world (snd run) = snd (get super (functionPath this functionName) (world s))
  /\ payload (snd run) = payload s
  /\ requests (snd run)
     = (requests s ++ [HttpGet (functionPath this functionName)])%list.
Proof.
  intros run. subst run.
  unfold exist, getFunction, superGet, request, bind.
  fold (functionPath this functionName).
  destruct (get super (functionPath this functionName) (world s))
    as [[response | e] w]; simpl; [| repeat split].
  destruct (Js.member response "name") as [e | name]; simpl; [repeat split |].
  destruct (Js.truthy name); simpl; [repeat split |].
  destruct (Js.member response "error") as [e | error]; simpl; [repeat split |].
  destruct (Js.member error "code") as [e | code]; simpl; [repeat split |].
  destruct (Js.strictEqNum code 404); simpl; repeat split.
Qed.

(** C9. For every function name and every response of the read of the
    function: [exist] returns true when the response carries a name; it
    returns false when the response carries no name but an error whose code
    is 404; for every other response it throws, with the error "Unknown
    status of Cloud Functions ..." when the response carries an error with
    another code. *)
Theorem exist_by_response (this : t) (functionName : string) (s : State W)
    (response : Js.Value) (w : W) :
  get super (functionPath this functionName) (world s) = (Ret response, w) ->
  let run := exist super this functionName s in
  (carriesName response = true -> fst run = Ret true)
  /\ (forall code,
      carriesName response = false ->
      errorCode response = Some code ->
      Js.strictEqNum code 404 = true ->
      fst run = Ret false)
  /\ (forall code,
      carriesName response = false ->
      errorCode response = Some code ->
      Js.strictEqNum code 404 = false ->
      fst run
      = Throw (Js.PlainError ("Unknown status of Cloud Functions " ++ functionName)))
  /\ (carriesName response = false ->
      (forall code, errorCode response = Some code ->
                    Js.strictEqNum code 404 = false) ->
      exists e, fst run = Throw e).
Proof.
  intros Hget run. subst run.
  unfold exist, getFunction, superGet, request, bind.
  fold (functionPath this functionName). rewrite Hget.
  unfold carriesName, errorCode. simpl.
  destruct (Js.member response "name") as [e | name] eqn:Hname; simpl.
  - assert (Hnone : exists e', Js.member response "error" = inl e')
      by (destruct response; simpl in *; try discriminate; eexists; reflexivity).
    destruct Hnone as [e' Hnone]. rewrite Hnone.
    split; [discriminate |].
    split; [intros code _ Hcode; discriminate |].
    split; [intros code _ Hcode; discriminate |].
    intros _ _. eexists. reflexivity.
  - destruct (Js.truthy name); simpl.
    + split; [reflexivity |].
      split; [intros code Hfalse; discriminate |].
      split; [intros code Hfalse; discriminate |].
      intros Hfalse. discriminate.
    + destruct (Js.member response "error") as [e | error]; simpl.
      * split; [discriminate |].
        split; [intros code _ Hcode; discriminate |].
        split; [intros code _ Hcode; discriminate |].
        intros _ _. eexists. reflexivity.
      * destruct (Js.member error "code") as [e | code]; simpl.
        -- split; [discriminate |].
           split; [intros code _ Hcode; discriminate |].
           split; [intros code _ Hcode; discriminate |].
           intros _ _. eexists. reflexivity.
        -- split; [discriminate |].
           split; [intros c _ Hc Heq; inversion Hc; subst c; rewrite Heq;
                   reflexivity |].
           split; [intros c _ Hc Heq; inversion Hc; subst c; rewrite Heq;
                   reflexivity |].
           intros _ Hall. rewrite (Hall code eq_refl). eexists. reflexivity.
Qed.

(** C10. When the function exists, [createOrUpdate] sends one PATCH to the
    path of that function with the payload as it is and leaves the payload
    of the caller unchanged; when it does not exist, it first assigns the
    full path [projects/.../locations/.../functions/<name>] to
    [payload.name] and then sends the creation, with that payload, to the
    path of the functions; in both cases what it returns is the [name] of
    the operation the request answered with. *)
Theorem createOrUpdate_spec (this : t) (functionsName : string) (s : State W) :
  let run := createOrUpdate super this functionsName s in
  (forall s1 operation w,
      exist super this functionsName s = (Ret true, s1) ->
      mutate super (functionPath this functionsName) (Js.Obj (payload s))
             (Some "PATCH") (world s1)
      = (Ret operation, w) ->
      fst run = outcome (Js.member operation "name")
      /\ payload (snd run) = payload s
      /\ requests (snd run)
         = (requests s1
            ++ [HttpMutate (functionPath this functionsName)
                           (Js.Obj (payload s)) (Some "PATCH")])%list)
  /\ (forall s1 operation w,
      exist super this functionsName s = (Ret false, s1) ->
      let named :=
        <["name" := Js.Str (functionPath this functionsName)]> (payload s) in
      mutate super (functionsPath this) (Js.Obj named) None (world s1)
      = (Ret operation, w) ->
      fst run = outcome (Js.member operation "name")
      /\ payload (snd run) = named
      /\ requests (snd run)
         = (requests s1
            ++ [HttpMutate (functionsPath this) (Js.Obj named) None])%list).
Proof.
  intros run. subst run.
  pose proof (exist_state this functionsName s) as (_ & Hpayload & _).
  cbv zeta in Hpayload.
  split.
  - intros s1 operation w Hexist Hmutate.
    rewrite Hexist in Hpayload. simpl in Hpayload.
    assert (Hrun :
      createOrUpdate super this functionsName s
      = (outcome (Js.member operation "name"),
         {| world := w; payload := payload s;
            requests := requests s1
                        ++ [HttpMutate (functionPath this functionsName)
                                       (Js.Obj (payload s)) (Some "PATCH")];
            console := console s1 |})).
    { unfold createOrUpdate, bind. rewrite Hexist.
      unfold gets, updateFunction, thisMutate, request.
      fold (functionPath this functionsName). rewrite Hpayload, Hmutate.
      destruct (Js.member operation "name") as [e | name]; reflexivity. }
    rewrite Hrun. simpl. repeat split.
  - intros s1 operation w Hexist named Hmutate.
    rewrite Hexist in Hpayload. simpl in Hpayload.
    assert (Hrun :
      createOrUpdate super this functionsName s
      = (outcome (Js.member operation "name"),
         {| world := w; payload := named;
            requests := requests s1
                        ++ [HttpMutate (functionsPath this) (Js.Obj named) None];
            console := console s1 |})).
    { unfold createOrUpdate, bind. rewrite Hexist.
      unfold assignName, modify, gets, createFunction, thisMutate, request.
      fold (functionPath this functionsName). fold (functionsPath this).
      simpl. rewrite Hpayload. fold named. rewrite Hmutate.
      destruct (Js.member operation "name") as [e | name]; reflexivity. }
    rewrite Hrun. simpl. repeat split.
Qed.

End CloudFunctionsFacts.

Lemma exist_by_response_witness :
  fst (CloudFunctions.exist (CloudDoubles.failing 403) CloudDoubles.this "main"
         (CloudDoubles.start []))
  = Throw (Js.PlainError "Unknown status of Cloud Functions main")
  /\ fst (CloudFunctions.exist CloudDoubles.service CloudDoubles.this "main"
            (CloudDoubles.start []))
     = Ret false.
Proof.
  split.
  - destruct (exist_by_response (CloudDoubles.failing 403) CloudDoubles.this
                "main" (CloudDoubles.start []) (CloudDoubles.errorResponse 403)
                [] eq_refl) as (_ & _ & Hother & _).
    apply (Hother (Js.Num 403)); vm_compute; reflexivity.
  - destruct (exist_by_response CloudDoubles.service CloudDoubles.this
                "main" (CloudDoubles.start []) (CloudDoubles.errorResponse 404)
                [] eq_refl) as (_ & Habsent & _).
    apply (Habsent (Js.Num 404)); vm_compute; reflexivity.
Defined.

Lemma createOrUpdate_spec_witness :
  let run :=
    CloudFunctions.createOrUpdate CloudDoubles.service CloudDoubles.this "main"
      (CloudDoubles.start []) in
  fst run = Ret (Js.Str "operations/op-1")
  /\ CloudFunctions.payload (snd run) !! "name"
     = Some (Js.Str "projects/my-project/locations/europe-west1/functions/main")
  /\ CloudFunctions.payload (snd run) !! "runtime" = Some (Js.Str "nodejs20").
Proof.
  assert (Hexist :
    CloudFunctions.exist CloudDoubles.service CloudDoubles.this "main"
      (CloudDoubles.start [])
    = (Ret false,
       {| CloudFunctions.world := [];
          CloudFunctions.payload := CloudDoubles.payloadProps;
          CloudFunctions.requests :=
            [CloudFunctions.HttpGet
               "projects/my-project/locations/europe-west1/functions/main"];
          CloudFunctions.console := [] |}))
    by (vm_compute; reflexivity).
  destruct (createOrUpdate_spec CloudDoubles.service CloudDoubles.this "main"
              (CloudDoubles.start [])) as [_ Hcreate].
  destruct (Hcreate _ CloudDoubles.operation [] Hexist eq_refl)
    as (Hfst & Hpayload & _).
  split; [| split].
  - etransitivity; [exact Hfst |]. vm_compute. reflexivity.
  - rewrite Hpayload. vm_compute. reflexivity.
  - rewrite Hpayload. vm_compute. reflexivity.
Defined.

Example createOrUpdate_existing :
  let run :=
    CloudFunctions.createOrUpdate CloudDoubles.service CloudDoubles.this "main"
      (CloudDoubles.start
         ["projects/my-project/locations/europe-west1/functions/main"]) in
  fst run = Ret (Js.Str "operations/op-1")
  /\ CloudFunctions.payload (snd run) = CloudDoubles.payloadProps
  /\ CloudFunctions.requests (snd run)
     = [CloudFunctions.HttpGet
          "projects/my-project/locations/europe-west1/functions/main";
        CloudFunctions.HttpMutate
          "projects/my-project/locations/europe-west1/functions/main"
          (Js.Obj CloudDoubles.payloadProps) (Some "PATCH")].
Proof. vm_compute. repeat split; reflexivity. Qed.

(** * Further properties of the offline user data job upload *)

Section MoreSourceResolution.
Context {W : Type} (imports : Imports W).
Import GoogleAdsOfflineUserDataJobUpload.

(** A value that answers the read of [file] answers the read of [bucket]. *)
Lemma member_total (parsed file : Js.Value) (key : string) :
  Js.member parsed "file" = inr file ->
  exists v, Js.member parsed key = inr v.
Proof.
  destruct parsed; simpl; intros H; try discriminate; eexists; reflexivity.
Qed.

(** X1. The guard of the first [try] looks at the truthiness of [file]
    only.  Whatever the message parses to (an object with an empty, null,
    zero or false [file], a number, a string, an array), if the parsed value
    answers [file] with a falsy value, the upload is refused with the one
    error text built from the message, no remote call is made, and one error
    line is logged. *)
Theorem falsy_file_is_rejected (googleAds : GoogleAds W)
    (message messageId : string) (config : GoogleAdsOfflineUserDataJobConfig.t)
    (s : State W) (parsed file : Js.Value) :
  JSON_parse imports message = inr parsed ->
  Js.member parsed "file" = inr file ->
  Js.truthy file = false ->
  sendDataInternal imports googleAds message messageId config s
  = (Ret {| result := false;
            errors := ["Could find GCS infomation in message: " ++ message] |},
     {| world := world s; jobConfig := jobConfig s; trace := trace s;
        logs := logs s ++ [(Error, "Could find GCS infomation in message",
                            LogText message)] |}).
Proof.
  intros Hparse Hfile Hfalsy.
  destruct (member_total parsed file "bucket" Hfile) as [bucket Hbucket].
  unfold sendDataInternal, bind.
  rewrite (resolveRecords_no_file imports message parsed bucket file s
             Hparse Hbucket Hfile Hfalsy).
  reflexivity.
Qed.

(** X2. A message that parses to [null] is no reference: destructuring
    [null] throws inside the first [try], so no fetch is made, the incoming
    message is logged, and the upload goes on with the message string as the
    record data. *)
Theorem null_message_is_inline (googleAds : GoogleAds W)
    (message messageId : string) (config : GoogleAdsOfflineUserDataJobConfig.t)
    (s : State W) :
  JSON_parse imports message = inr Js.Null ->
  sendDataInternal imports googleAds message messageId config s
  = try_catch (uploadToJob imports googleAds message messageId config)
              uploadFailed
      {| world := world s; jobConfig := jobConfig s; trace := trace s;
         logs := logs s ++ [(Error, "Incoming message: ", LogText message)] |}.
Proof.
  intros Hparse.
  unfold sendDataInternal, bind at 1.
  unfold resolveRecords, try_catch at 1, bind. rewrite Hparse. reflexivity.
Qed.

(** X3. For a message that parses to a value with a truthy [file], the
    stored object is fetched once, with the [bucket] the message names, be it
    [undefined]; when the fetch returns, its content is the record data of
    the upload, and nothing is logged for the source. *)
Theorem fetched_content_is_uploaded (googleAds : GoogleAds W)
    (message messageId : string) (config : GoogleAdsOfflineUserDataJobConfig.t)
    (s : State W) (parsed bucket file : Js.Value) (content : string) (w : W) :
  JSON_parse imports message = inr parsed ->
  Js.member parsed "bucket" = inr bucket ->
  Js.member parsed "file" = inr file ->
  Js.truthy file = true ->
  loadContent imports bucket file (world s) = (Ret content, w) ->
  sendDataInternal imports googleAds message messageId config s
  = try_catch (uploadToJob imports googleAds content messageId config)
              uploadFailed
      {| world := w; jobConfig := jobConfig s;
         trace := trace s ++ [LoadContent bucket file];
         logs := logs s |}.
Proof.
  intros Hparse Hbucket Hfile Htruthy Hload.
  unfold sendDataInternal, bind.
  rewrite (resolveRecords_reference imports message parsed bucket file s
             Hparse Hbucket Hfile Htruthy).
  rewrite Hload. reflexivity.
Qed.

End MoreSourceResolution.

Lemma falsy_file_is_rejected_witness :
  GoogleAdsOfflineUserDataJobUpload.sendDataInternal MoreDoubles.imports
    Doubles.googleAds MoreDoubles.emptyKeyMessage "m-1" Doubles.config
    Doubles.start
  = (Ret {| result := false;
            errors := ["Could find GCS infomation in message: "
                         ++ MoreDoubles.emptyKeyMessage] |},
     {| world := world Doubles.start; jobConfig := jobConfig Doubles.start;
        trace := trace Doubles.start;
        logs := logs Doubles.start
                ++ [(Error, "Could find GCS infomation in message",
                     LogText MoreDoubles.emptyKeyMessage)] |}).
Proof.
  apply (falsy_file_is_rejected MoreDoubles.imports Doubles.googleAds
           MoreDoubles.emptyKeyMessage "m-1" Doubles.config Doubles.start
           (Js.Obj {[ "bucket" := Js.Str "b"; "file" := Js.Str "" ]})
           (Js.Str "")).
  - vm_compute. reflexivity.
  - vm_compute. reflexivity.
  - reflexivity.
Defined.

Example number_message_is_rejected :
  fst (GoogleAdsOfflineUserDataJobUpload.sendDataInternal MoreDoubles.imports
         Doubles.googleAds "123" "m-1" Doubles.config Doubles.start)
  = Ret {| result := false;
           errors := ["Could find GCS infomation in message: 123"] |}.
Proof. vm_compute. reflexivity. Qed.

Lemma null_message_is_inline_witness :
  GoogleAdsOfflineUserDataJobUpload.sendDataInternal MoreDoubles.imports
    Doubles.googleAds "null" "m-1" Doubles.config Doubles.start
  = try_catch
      (GoogleAdsOfflineUserDataJobUpload.uploadToJob MoreDoubles.imports
         Doubles.googleAds "null" "m-1" Doubles.config)
      GoogleAdsOfflineUserDataJobUpload.uploadFailed
      {| world := world Doubles.start; jobConfig := jobConfig Doubles.start;
         trace := trace Doubles.start;
         logs := logs Doubles.start
                 ++ [(Error, "Incoming message: ", LogText "null")] |}.
Proof.
  apply (null_message_is_inline MoreDoubles.imports Doubles.googleAds "null"
           "m-1" Doubles.config Doubles.start).
  vm_compute. reflexivity.
Defined.

Lemma fetched_content_is_uploaded_witness :
  GoogleAdsOfflineUserDataJobUpload.sendDataInternal MoreDoubles.imports
    Doubles.googleAds MoreDoubles.keyOnlyMessage "m-1" Doubles.config
    Doubles.start
  = try_catch
      (GoogleAdsOfflineUserDataJobUpload.uploadToJob MoreDoubles.imports
         Doubles.googleAds Doubles.threeRecords "m-1" Doubles.config)
      GoogleAdsOfflineUserDataJobUpload.uploadFailed
      {| world := 1; jobConfig := jobConfig Doubles.start;
         trace := trace Doubles.start
                  ++ [LoadContent Js.Undefined (Js.Str "f")];
         logs := logs Doubles.start |}.
Proof.
  apply (fetched_content_is_uploaded MoreDoubles.imports Doubles.googleAds
           MoreDoubles.keyOnlyMessage "m-1" Doubles.config Doubles.start
           (Js.Obj {[ "file" := Js.Str "f" ]}) Js.Undefined (Js.Str "f")
           Doubles.threeRecords 1).
  - vm_compute. reflexivity.
  - vm_compute. reflexivity.
  - vm_compute. reflexivity.
  - reflexivity.
  - vm_compute. reflexivity.
Defined.

Section MoreJobLifecycle.
Context {W : Type} (imports : Imports W).
Import GoogleAdsOfflineUserDataJobUpload.

(** The block of the second [try], step by step, for a job type that does
    not start with [CUSTOMER_MATCH]. *)
Lemma uploadToJob_other_type (googleAds : GoogleAds W)
    (records messageId : string) (config : GoogleAdsOfflineUserDataJobConfig.t)
    (s : State W) (props : gmap string Js.Value) (type : string) :
  jobConfig s = Js.Obj props ->
  props !! "type" = Some (Js.Str type) ->
  String.prefix "CUSTOMER_MATCH" type = false ->
  uploadToJob imports googleAds records messageId config s
  = let job := Js.Obj props in
    match createOfflineUserDataJob googleAds job (world s) with
    | (Throw e, w2) =>
        (Throw e,
         {| world := w2; jobConfig := job;
            trace := trace s ++ [CreateOfflineUserDataJob job];
            logs := logs s |})
    | (Ret name, w2) =>
        let target := OfflineUserDataJobOperations job name in
        let sent :=
          sendAll (getAddOperationsToOfflineUserDataJobFn googleAds job name)
                  0 (batchesOf imports config records) w2 in
        let ran := runOfflineUserDataJob googleAds job name (snd sent) in
        (match fst ran with
         | Ret _ => Ret (ManagedSend.aggregate (fst sent))
         | Throw e => Throw e
         end,
         {| world := snd ran; jobConfig := job;
            trace := trace s ++ [CreateOfflineUserDataJob job]
                     ++ map (BatchSend target) (batchesOf imports config records)
                     ++ [RunOfflineUserDataJob job name];
            logs := logs s
                    ++ [(Info, "jobResourceName: ", LogValue name);
                        (Info, "add userdata result: ",
                         LogResult (ManagedSend.aggregate (fst sent)))] |})
    end.
Proof.
  intros Hjob Htype Hprefix.
  destruct s as [w0 cfg tr lg]. simpl in Hjob. subst cfg.
  unfold uploadToJob, bind, gets. simpl. rewrite Htype. simpl.
  rewrite Hprefix. unfold call at 1. simpl.
  destruct (createOfflineUserDataJob googleAds (Js.Obj props) w0)
    as [[name | e] w2]; [| reflexivity].
  unfold getManagedSendFn. rewrite managedSend_eq.
  unfold batchesOf, call. simpl.
  match goal with
  | |- context [runOfflineUserDataJob ?g ?c ?n ?w] =>
      destruct (runOfflineUserDataJob g c n w) as [[[] | e] w4]
  end; simpl; unfold ret; repeat rewrite <- app_assoc; reflexivity.
Qed.

(** Without a string for [type] the block throws a [TypeError] at once. *)
Lemma uploadToJob_untyped (googleAds : GoogleAds W)
    (records messageId : string) (config : GoogleAdsOfflineUserDataJobConfig.t)
    (s : State W) :
  (forall type, Js.member (jobConfig s) "type" <> inr (Js.Str type)) ->
  exists text,
    uploadToJob imports googleAds records messageId config s
    = (Throw (Js.TypeError text), s).
Proof.
  intros Hnone. unfold uploadToJob, bind, gets.
  destruct (Js.member (jobConfig s) "type") as [e | type] eqn:Hmember.
  - destruct (jobConfig s); simpl in Hmember; try discriminate;
      inversion Hmember; subst e; eexists; reflexivity.
  - simpl. destruct type; simpl; try (eexists; reflexivity).
    exfalso. eapply Hnone. reflexivity.
Qed.

(** A job configuration either is an object with a string for [type] or
    answers the read of [type] with no string. *)
Lemma job_type_cases (v : Js.Value) :
  (exists props type, v = Js.Obj props /\ props !! "type" = Some (Js.Str type))
  \/ (forall type, Js.member v "type" <> inr (Js.Str type)).
Proof.
  destruct v; try (right; intros type; simpl; discriminate).
  destruct (props !! "type") as [t |] eqn:Htype.
  - destruct t; try (right; intros type; simpl; rewrite Htype; simpl;
                     discriminate).
    left. eauto.
  - right. intros type. simpl. rewrite Htype. simpl. discriminate.
Qed.

End MoreJobLifecycle.

Section JobLifecycleExtras.
Context {W : Type} (imports : Imports W).
Import GoogleAdsOfflineUserDataJobUpload.

(** X4. For a job type that does not start with [CUSTOMER_MATCH] (and a
    source that resolved to records) no list is created or fetched and the
    configuration of the caller stays as it is: the remote calls after
    source resolution are the job creation, then, if it returned, one send
    per batch and the run-job command; the result reports the batch
    outcomes when the run-job command returns. *)
Theorem other_job_types_skip_the_list (googleAds : GoogleAds W)
    (message messageId : string) (config : GoogleAdsOfflineUserDataJobConfig.t)
    (s s1 : State W) (records : string) (props : gmap string Js.Value)
    (type : string) :
  resolveRecords imports message s = (Ret (inr records), s1) ->
  jobConfig s1 = Js.Obj props ->
  props !! "type" = Some (Js.Str type) ->
  String.prefix "CUSTOMER_MATCH" type = false ->
  let run := sendDataInternal imports googleAds message messageId config s in
  let job := Js.Obj props in
  jobConfig (snd run) = job
  /\ (forall e w2,
      createOfflineUserDataJob googleAds job (world s1) = (Throw e, w2) ->
      trace (snd run) = (trace s1 ++ [CreateOfflineUserDataJob job])%list)
  /\ (forall name w2,
      createOfflineUserDataJob googleAds job (world s1) = (Ret name, w2) ->
      let batches := batchesOf imports config records in
      let sent :=
        sendAll (getAddOperationsToOfflineUserDataJobFn googleAds job name)
                0 batches w2 in
      let calls :=
        ([CreateOfflineUserDataJob job]
         ++ map (BatchSend (OfflineUserDataJobOperations job name)) batches
         ++ [RunOfflineUserDataJob job name])%list in
      trace (snd run) = (trace s1 ++ calls)%list
      /\ occurrences isListCreation calls = 0
      /\ occurrences isRunJob calls = 1
      /\ (forall w3,
          runOfflineUserDataJob googleAds job name (snd sent) = (Ret tt, w3) ->
          fst run = Ret (ManagedSend.aggregate (fst sent)))).
Proof.
  intros Hresolve Hjob Htype Hprefix run job. subst run.
  rewrite (sendDataInternal_resolved imports googleAds message messageId
             config s s1 records Hresolve).
  destruct (upload_catch imports googleAds records messageId config s1)
    as (Htrace & Hconfig & _ & Hfst).
  cbv zeta in Htrace, Hconfig, Hfst. rewrite Htrace, Hconfig, Hfst.
  rewrite (uploadToJob_other_type imports googleAds records messageId config
             s1 props type Hjob Htype Hprefix).
  cbv zeta. fold job.
  split; [| split].
  - destruct (createOfflineUserDataJob googleAds job (world s1))
      as [[name | e] w2]; reflexivity.
  - intros e w2 Hcreate. rewrite Hcreate. reflexivity.
  - intros name w2 Hcreate. rewrite Hcreate. simpl.
    split; [reflexivity |].
    change (?a :: ?l ++ ?r)%list with ([a] ++ l ++ r)%list.
    repeat rewrite occurrences_app.
    rewrite !occurrences_sends by reflexivity.
    repeat split.
    intros w3 Hrun. rewrite Hrun. reflexivity.
Qed.

(** X5. When the job configuration holds no string for [type] (no
    configuration object at all, no [type], a [type] that is no string), the
    second [try] throws a [TypeError] before any remote call: after source
    resolution nothing is added to the trace, the outside world and the
    configuration are as they were, and the upload answers with the result
    made of that error. *)
Theorem untyped_job_makes_no_remote_call (googleAds : GoogleAds W)
    (message messageId : string) (config : GoogleAdsOfflineUserDataJobConfig.t)
    (s s1 : State W) (records : string) :
  resolveRecords imports message s = (Ret (inr records), s1) ->
  (forall type, Js.member (jobConfig s1) "type" <> inr (Js.Str type)) ->
  let run := sendDataInternal imports googleAds message messageId config s in
  trace (snd run) = trace s1
  /\ world (snd run) = world s1
  /\ jobConfig (snd run) = jobConfig s1
  /\ exists text, fst run = Ret (getResultFromError (Js.TypeError text)).
Proof.
  intros Hresolve Hnone run. subst run.
  rewrite (sendDataInternal_resolved imports googleAds message messageId
             config s s1 records Hresolve).
  destruct (upload_catch imports googleAds records messageId config s1)
    as (Htrace & Hconfig & Hworld & Hfst).
  cbv zeta in Htrace, Hconfig, Hworld, Hfst.
  rewrite Htrace, Hconfig, Hworld, Hfst.
  destruct (uploadToJob_untyped imports googleAds records messageId config s1
              Hnone) as [text Hblock].
  rewrite Hblock. simpl. repeat split. eexists. reflexivity.
Qed.

(** X6. When the run-job command throws after the batches were sent, every
    batch has been sent already and the job exists; the result of the sends
    is written to the log only, and what the upload returns is the result
    made of the exception. *)
Theorem run_job_failure_follows_the_sends (googleAds : GoogleAds W)
    (message messageId : string) (config : GoogleAdsOfflineUserDataJobConfig.t)
    (s s1 : State W) (records : string) (props : gmap string Js.Value)
    (type : string) (name : Js.Value) (w2 w3 : W) (e : Js.Error) :
  resolveRecords imports message s = (Ret (inr records), s1) ->
  jobConfig s1 = Js.Obj props ->
  props !! "type" = Some (Js.Str type) ->
  String.prefix "CUSTOMER_MATCH" type = false ->
  let job := Js.Obj props in
  let batches := batchesOf imports config records in
  let sent :=
    sendAll (getAddOperationsToOfflineUserDataJobFn googleAds job name)
            0 batches w2 in
  createOfflineUserDataJob googleAds job (world s1) = (Ret name, w2) ->
  runOfflineUserDataJob googleAds job name (snd sent) = (Throw e, w3) ->
  let run := sendDataInternal imports googleAds message messageId config s in
  fst run = Ret (getResultFromError e)
  /\ trace (snd run)
     = (trace s1 ++ [CreateOfflineUserDataJob job]
        ++ map (BatchSend (OfflineUserDataJobOperations job name)) batches
        ++ [RunOfflineUserDataJob job name])%list
  /\ logs (snd run)
     = (logs s1
        ++ [(Info, "jobResourceName: ", LogValue name);
            (Info, "add userdata result: ",
             LogResult (ManagedSend.aggregate (fst sent)));
            (Error, "Error in UserdataOfflineDataService: ", LogError e)])%list.
Proof.
  intros Hresolve Hjob Htype Hprefix job batches sent Hcreate Hrun run.
  subst run.
  rewrite (sendDataInternal_resolved imports googleAds message messageId
             config s s1 records Hresolve).
  unfold try_catch.
  rewrite (uploadToJob_other_type imports googleAds records messageId config
             s1 props type Hjob Htype Hprefix).
  cbv zeta. fold job. rewrite Hcreate. fold batches. fold sent.
  rewrite Hrun. simpl. rewrite <- app_assoc. repeat split.
Qed.

End JobLifecycleExtras.

Section UploadInvariants.
Context {W : Type} (imports : Imports W).
Import GoogleAdsOfflineUserDataJobUpload.

Ltac count_calls :=
  repeat rewrite occurrences_app;
  rewrite ?occurrences_all_sends;
  rewrite ?occurrences_sends by reflexivity;
  unfold occurrences; simpl; try lia.

(** Source resolution adds at most the one fetch to the trace and leaves
    the configuration alone. *)
Lemma resolveRecords_calls (message : string) (s : State W) :
  let resolved := resolveRecords imports message s in
  jobConfig (snd resolved) = jobConfig s
  /\ exists added,
      trace (snd resolved) = (trace s ++ added)%list
      /\ (added = [] \/ exists bucket file, added = [LoadContent bucket file]).
Proof.
  intros resolved. subst resolved.
  unfold resolveRecords, try_catch, bind.
  destruct (JSON_parse imports message) as [e | parsed]; simpl;
    [split; [reflexivity | exists []; rewrite app_nil_r; auto] |].
  destruct (Js.member parsed "bucket") as [e | bucket]; simpl;
    [split; [reflexivity | exists []; rewrite app_nil_r; auto] |].
  destruct (Js.member parsed "file") as [e | file]; simpl;
    [split; [reflexivity | exists []; rewrite app_nil_r; auto] |].
  destruct (Js.truthy file); simpl;
    [| split; [reflexivity | exists []; rewrite app_nil_r; auto]].
  unfold call.
  destruct (loadContent imports bucket file (world s)) as [[content | e] w];
    simpl; (split; [reflexivity |]);
    exists [LoadContent bucket file]; split; eauto.
Qed.

(** The block of the second [try], whatever the configuration and whatever
    the remote services answer: the calls it adds, and what it does to the
    configuration. *)
Lemma uploadToJob_calls (googleAds : GoogleAds W) (records messageId : string)
    (config : GoogleAdsOfflineUserDataJobConfig.t) (s : State W) :
  let block := uploadToJob imports googleAds records messageId config s in
  (exists added,
      trace (snd block) = (trace s ++ added)%list
      /\ occurrences isFetch added = 0
      /\ lifecycle_counts added)
  /\ (jobConfig (snd block) = jobConfig s
      \/ exists props listId,
          jobConfig s = Js.Obj props
          /\ jobConfig (snd block) = Js.Obj (<["list_id" := listId]> props)).
Proof.
  intros block. subst block. unfold lifecycle_counts.
  destruct (job_type_cases (jobConfig s)) as [(props & type & Hjob & Htype) | Hnone].
  - destruct (String.prefix "CUSTOMER_MATCH" type) eqn:Hprefix.
    + rewrite (uploadToJob_customer_match imports googleAds records messageId
                 config s props type Hjob Htype Hprefix).
      destruct (getOrCreateUserList imports googleAds (Js.Obj props) (world s))
        as [[listId | e] w1]; simpl.
      * destruct (createOfflineUserDataJob googleAds
                    (Js.Obj (<["list_id" := listId]> props)) w1)
          as [[name | e] w2]; simpl.
        -- split; [| right; eauto].
           eexists. split; [reflexivity |].
           change (?a :: ?b :: ?l ++ ?r)%list with ([a; b] ++ l ++ r)%list.
           repeat split; count_calls.
        -- split; [| right; eauto].
           eexists. split; [reflexivity |]. repeat split; count_calls.
      * split; [| left; symmetry; exact Hjob].
        eexists. split; [reflexivity |]. repeat split; count_calls.
    + rewrite (uploadToJob_other_type imports googleAds records messageId
                 config s props type Hjob Htype Hprefix).
      cbv zeta.
      destruct (createOfflineUserDataJob googleAds (Js.Obj props) (world s))
        as [[name | e] w2]; simpl.
      * split; [| left; symmetry; exact Hjob].
        eexists. split; [reflexivity |].
        change (?a :: ?l ++ ?r)%list with ([a] ++ l ++ r)%list.
        repeat split; count_calls.
      * split; [| left; symmetry; exact Hjob].
        eexists. split; [reflexivity |]. repeat split; count_calls.
  - destruct (uploadToJob_untyped imports googleAds records messageId config s
                Hnone) as [text Hblock].
    rewrite Hblock. simpl. split; [| left; reflexivity].
    exists []. rewrite app_nil_r. repeat split; count_calls.
Qed.

(** X7. Whatever the message, the configuration and the answers of the
    remote services, one upload fetches at most one stored object, creates
    or fetches at most one list, creates at most one job, issues the run-job
    command at most once and only when it issued a job creation, and sends
    no batch without having issued a job creation. *)
Theorem upload_call_counts (googleAds : GoogleAds W)
    (message messageId : string) (config : GoogleAdsOfflineUserDataJobConfig.t)
    (s : State W) :
  let run := sendDataInternal imports googleAds message messageId config s in
  exists added,
    trace (snd run) = (trace s ++ added)%list
    /\ occurrences isFetch added <= 1
    /\ occurrences isListCreation added <= 1
    /\ occurrences isJobCreation added <= 1
    /\ occurrences isRunJob added <= occurrences isJobCreation added
    /\ (occurrences isJobCreation added = 0 ->
        occurrences isBatchSend added = 0).
Proof.
  intros run. subst run.
  destruct (resolveRecords_calls message s) as (_ & fetched & Hfetched & Hshape).
  destruct (resolveRecords_returns imports message s) as [source Hsource].
  cbv zeta in Hfetched. unfold sendDataInternal, bind.
  destruct (resolveRecords imports message s) as [o s1].
  simpl in Hsource, Hfetched. subst o.
  destruct source as [failed | records].
  - exists fetched. simpl. split; [exact Hfetched |].
    destruct Hshape as [-> | (bucket & file & ->)]; repeat split; count_calls.
  - destruct (upload_catch imports googleAds records messageId config s1)
      as (Htrace & _).
    cbv zeta in Htrace. rewrite Htrace.
    destruct (uploadToJob_calls googleAds records messageId config s1)
      as [(added & Hadded & Hnofetch & Hl & Hj & Hr & Hb) _].
    cbv zeta in Hadded. rewrite Hadded, Hfetched.
    exists (fetched ++ added)%list. rewrite <- app_assoc.
    split; [reflexivity |].
    repeat rewrite occurrences_app.
    destruct Hshape as [-> | (bucket & file & ->)];
      unfold occurrences at 1 3 5 7 9 11; simpl; repeat split; try lia.
Qed.

(** X8. Whatever the message, the configuration and the answers of the
    remote services, the only thing an upload changes in the configuration
    object of the caller is [list_id]: every other property reads after the
    upload as it did before. *)
Theorem upload_changes_list_id_only (googleAds : GoogleAds W)
    (message messageId : string) (config : GoogleAdsOfflineUserDataJobConfig.t)
    (s : State W) (key : string) :
  key <> "list_id" ->
  let run := sendDataInternal imports googleAds message messageId config s in
  Js.member (jobConfig (snd run)) key = Js.member (jobConfig s) key.
Proof.
  intros Hkey run. subst run.
  destruct (resolveRecords_calls message s) as (Hsame & _).
  destruct (resolveRecords_returns imports message s) as [source Hsource].
  cbv zeta in Hsame. unfold sendDataInternal, bind.
  destruct (resolveRecords imports message s) as [o s1].
  simpl in Hsource, Hsame. subst o.
  destruct source as [failed | records]; [simpl; rewrite Hsame; reflexivity |].
  destruct (upload_catch imports googleAds records messageId config s1)
    as (_ & Hconfig & _).
  cbv zeta in Hconfig. rewrite Hconfig.
  destruct (uploadToJob_calls googleAds records messageId config s1)
    as [_ [Hkept | (props & listId & Hbefore & Hafter)]];
    cbv zeta in *.
  - rewrite Hkept, Hsame. reflexivity.
  - rewrite Hafter, <- Hsame, Hbefore. simpl.
    rewrite lookup_insert_ne by congruence. reflexivity.
Qed.

End UploadInvariants.

Lemma other_job_types_skip_the_list_witness :
  let run :=
    GoogleAdsOfflineUserDataJobUpload.sendDataInternal Doubles.imports
      Doubles.googleAds Doubles.threeRecords "m-1" Doubles.config
      MoreDoubles.storeSalesStart in
  let job := Js.Obj MoreDoubles.storeSalesJob in
  let target := OfflineUserDataJobOperations job Doubles.jobName in
  jobConfig (snd run) = job
  /\ trace (snd run)
     = [CreateOfflineUserDataJob job;
        BatchSend target ["a"; "bad"];
        BatchSend target ["c"];
        RunOfflineUserDataJob job Doubles.jobName].
Proof.
  assert (Hresolve :
    GoogleAdsOfflineUserDataJobUpload.resolveRecords Doubles.imports
      Doubles.threeRecords MoreDoubles.storeSalesStart
    = (Ret (inr Doubles.threeRecords),
       {| world := 0; jobConfig := Js.Obj MoreDoubles.storeSalesJob;
          trace := [];
          logs := [(Error, "Incoming message: ",
                    LogText Doubles.threeRecords)] |}))
    by (vm_compute; reflexivity).
  assert (Htype : MoreDoubles.storeSalesJob !! "type"
                  = Some (Js.Str "STORE_SALES_UPLOAD_FIRST_PARTY"))
    by (vm_compute; reflexivity).
  destruct (other_job_types_skip_the_list Doubles.imports Doubles.googleAds
              Doubles.threeRecords "m-1" Doubles.config
              MoreDoubles.storeSalesStart _ Doubles.threeRecords
              MoreDoubles.storeSalesJob "STORE_SALES_UPLOAD_FIRST_PARTY"
              Hresolve eq_refl Htype eq_refl)
    as (Hconfig & _ & Hcreated).
  destruct (Hcreated Doubles.jobName 1 eq_refl) as (Htrace & _).
  split; [exact Hconfig |].
  etransitivity; [exact Htrace |]. vm_compute. reflexivity.
Defined.

Lemma untyped_job_makes_no_remote_call_witness :
  let run :=
    GoogleAdsOfflineUserDataJobUpload.sendDataInternal Doubles.imports
      Doubles.googleAds Doubles.threeRecords "m-1" Doubles.config
      MoreDoubles.untypedStart in
  trace (snd run) = []
  /\ world (snd run) = 0
  /\ jobConfig (snd run) = jobConfig MoreDoubles.untypedStart
  /\ exists text, fst run = Ret (getResultFromError (Js.TypeError text)).
Proof.
  assert (Hresolve :
    GoogleAdsOfflineUserDataJobUpload.resolveRecords Doubles.imports
      Doubles.threeRecords MoreDoubles.untypedStart
    = (Ret (inr Doubles.threeRecords),
       {| world := 0; jobConfig := jobConfig MoreDoubles.untypedStart;
          trace := [];
          logs := [(Error, "Incoming message: ",
                    LogText Doubles.threeRecords)] |}))
    by (vm_compute; reflexivity).
  apply (untyped_job_makes_no_remote_call Doubles.imports Doubles.googleAds
           Doubles.threeRecords "m-1" Doubles.config MoreDoubles.untypedStart
           _ Doubles.threeRecords Hresolve).
  intros type. vm_compute. discriminate.
Defined.

Lemma run_job_failure_follows_the_sends_witness :
  let run :=
    GoogleAdsOfflineUserDataJobUpload.sendDataInternal Doubles.imports
      Doubles.googleAdsNoRun Doubles.threeRecords "m-1" Doubles.config
      MoreDoubles.storeSalesStart in
  let job := Js.Obj MoreDoubles.storeSalesJob in
  let target := OfflineUserDataJobOperations job Doubles.jobName in
  fst run = Ret {| result := false; errors := ["job did not start"] |}
  /\ occurrences isBatchSend (trace (snd run)) = 2.
Proof.
  assert (Hresolve :
    GoogleAdsOfflineUserDataJobUpload.resolveRecords Doubles.imports
      Doubles.threeRecords MoreDoubles.storeSalesStart
    = (Ret (inr Doubles.threeRecords),
       {| world := 0; jobConfig := Js.Obj MoreDoubles.storeSalesJob;
          trace := [];
          logs := [(Error, "Incoming message: ",
                    LogText Doubles.threeRecords)] |}))
    by (vm_compute; reflexivity).
  assert (Htype : MoreDoubles.storeSalesJob !! "type"
                  = Some (Js.Str "STORE_SALES_UPLOAD_FIRST_PARTY"))
    by (vm_compute; reflexivity).
  assert (Hrun :
    runOfflineUserDataJob Doubles.googleAdsNoRun
      (Js.Obj MoreDoubles.storeSalesJob) Doubles.jobName
      (snd (sendAll
              (getAddOperationsToOfflineUserDataJobFn Doubles.googleAdsNoRun
                 (Js.Obj MoreDoubles.storeSalesJob) Doubles.jobName)
              0 (batchesOf Doubles.imports Doubles.config Doubles.threeRecords)
              1))
    = (Throw (Js.PlainError "job did not start"), 4))
    by (vm_compute; reflexivity).
  destruct (run_job_failure_follows_the_sends Doubles.imports
              Doubles.googleAdsNoRun Doubles.threeRecords "m-1" Doubles.config
              MoreDoubles.storeSalesStart _ Doubles.threeRecords
              MoreDoubles.storeSalesJob "STORE_SALES_UPLOAD_FIRST_PARTY"
              Doubles.jobName 1 4 (Js.PlainError "job did not start")
              Hresolve eq_refl Htype eq_refl eq_refl Hrun)
    as (Hfst & Htrace & _).
  split.
  - etransitivity; [exact Hfst |]. reflexivity.
  - rewrite Htrace. vm_compute. reflexivity.
Defined.

Lemma upload_changes_list_id_only_witness :
  let run :=
    GoogleAdsOfflineUserDataJobUpload.sendDataInternal Doubles.imports
      Doubles.googleAds Doubles.threeRecords "m-1" Doubles.config
      MoreDoubles.relistedStart in
  Js.member (jobConfig (snd run)) "customer_id"
  = Js.member (jobConfig MoreDoubles.relistedStart) "customer_id".
Proof.
  apply (upload_changes_list_id_only Doubles.imports Doubles.googleAds
           Doubles.threeRecords "m-1" Doubles.config MoreDoubles.relistedStart
           "customer_id").
  discriminate.
Defined.

Example relisted_upload :
  let run :=
    GoogleAdsOfflineUserDataJobUpload.sendDataInternal Doubles.imports
      Doubles.googleAds Doubles.threeRecords "m-1" Doubles.config
      MoreDoubles.relistedStart in
  Js.member (jobConfig (snd run)) "list_id" = inr (Js.Str "list-7")
  /\ Js.member (jobConfig (snd run)) "customer_id" = inr (Js.Str "1").
Proof. vm_compute. split; reflexivity. Qed.

(** * Further properties of the Cloud Functions handler *)

Section MoreCloudFunctionsFacts.
Context {W : Type} (super : CloudFunctions.ApiBase W).
Import CloudFunctions.

(** X9. When [exist] throws (the read failed, or the status of the
    function is unknown), [createOrUpdate] throws the same error; the read
    of the function is the only request sent, so nothing is created or
    patched, and the payload of the caller is untouched. *)
Theorem createOrUpdate_stops_when_exist_throws (this : t)
    (functionsName : string) (s s1 : State W) (e : Js.Error) :
  exist super this functionsName s = (Throw e, s1) ->
  createOrUpdate super this functionsName s = (Throw e, s1)
  /\ payload s1 = payload s
  /\ requests s1
     = (requests s ++ [HttpGet (functionPath this functionsName)])%list.
Proof.
  intros Hexist.
  pose proof (exist_state super this functionsName s) as (_ & Hpayload & Hrequests).
  cbv zeta in Hpayload, Hrequests. rewrite Hexist in Hpayload, Hrequests.
  simpl in Hpayload, Hrequests.
  split; [| split; assumption].
  unfold createOrUpdate, bind. rewrite Hexist. reflexivity.
Qed.

(** X10. When the function does not exist, the payload of the caller gets
    as its [name] the very path under which [exist] has just looked the
    function up, and keeps every other property, whether the creation
    request then returns or throws; when it throws, [createOrUpdate] throws
    the same error, the name staying assigned. *)
Theorem creation_names_the_payload (this : t) (functionsName : string)
    (s s1 : State W) :
  exist super this functionsName s = (Ret false, s1) ->
  let run := createOrUpdate super this functionsName s in
  let path := functionPath this functionsName in
  requests s1 = (requests s ++ [HttpGet path])%list
  /\ payload (snd run) !! "name" = Some (Js.Str path)
  /\ (forall key, key <> "name" -> payload (snd run) !! key = payload s !! key)
  /\ (forall e w,
      mutate super (functionsPath this)
             (Js.Obj (<["name" := Js.Str path]> (payload s))) None (world s1)
      = (Throw e, w) ->
      fst run = Throw e).
Proof.
  intros Hexist run path. subst run.
  pose proof (exist_state super this functionsName s) as (_ & Hpayload & Hrequests).
  cbv zeta in Hpayload, Hrequests. rewrite Hexist in Hpayload, Hrequests.
  simpl in Hpayload, Hrequests.
  split; [exact Hrequests |].
  assert (Hrun :
    createOrUpdate super this functionsName s
    = let named := <["name" := Js.Str path]> (payload s) in
      let '(o, w) :=
        mutate super (functionsPath this) (Js.Obj named) None (world s1) in
      (match o with
       | Ret operation => outcome (Js.member operation "name")
       | Throw e => Throw e
       end,
       {| world := w; payload := named;
          requests := requests s1
                      ++ [HttpMutate (functionsPath this) (Js.Obj named) None];
          console := console s1 |})).
  { unfold createOrUpdate, bind. rewrite Hexist.
    unfold assignName, modify, gets, createFunction, thisMutate, request.
    fold (functionPath this functionsName). fold (functionsPath this).
    fold path. simpl. rewrite Hpayload.
    destruct (mutate super (functionsPath this)
                (Js.Obj (<["name" := Js.Str path]> (payload s))) None (world s1))
      as [[operation | e] w]; [| reflexivity].
    destruct (Js.member operation "name") as [e | name]; reflexivity. }
  rewrite Hrun. cbv zeta.
  destruct (mutate super (functionsPath this)
              (Js.Obj (<["name" := Js.Str path]> (payload s))) None (world s1))
    as [[operation | e] w]; simpl.
  - split; [apply lookup_insert_eq |].
    split; [intros key Hkey; apply lookup_insert_ne; congruence |].
    intros e w' Habsurd. discriminate.
  - split; [apply lookup_insert_eq |].
    split; [intros key Hkey; apply lookup_insert_ne; congruence |].
    intros e' w' Heq. inversion Heq. reflexivity.
Qed.

(** X11. Whatever the service answers, [createOrUpdate] starts with the
    read of the function and sends after it at most one mutation, never a
    second one, and no property of the payload other than [name] is
    changed. *)
Theorem createOrUpdate_sends_at_most_one_mutation (this : t)
    (functionsName : string) (s : State W) :
  let run := createOrUpdate super this functionsName s in
  (exists rest,
      requests (snd run)
      = (requests s ++ HttpGet (functionPath this functionsName) :: rest)%list
      /\ length rest <= 1
      /\ length (List.filter isGet rest) = 0)
  /\ (forall key, key <> "name" -> payload (snd run) !! key = payload s !! key).
Proof.
  intros run. subst run.
  pose proof (exist_state super this functionsName s) as (_ & Hpayload & Hrequests).
  cbv zeta in Hpayload, Hrequests.
  unfold createOrUpdate, bind.
  destruct (exist super this functionsName s) as [[[|] | e] s1];
    simpl in Hpayload, Hrequests.
  - unfold gets, updateFunction, thisMutate, request.
    destruct (mutate super _ _ _ (world s1)) as [[operation | e] w]; simpl.
    + destruct (Js.member operation "name") as [e | name]; simpl;
        (split; [| intros key _; congruence]);
        eexists; rewrite Hrequests, <- app_assoc;
        (split; [reflexivity | split; simpl; lia]).
    + split; [| intros key _; congruence].
      eexists. rewrite Hrequests, <- app_assoc.
      split; [reflexivity | split; simpl; lia].
  - unfold assignName, modify, gets, createFunction, thisMutate, request. simpl.
    destruct (mutate super _ _ _ (world s1)) as [[operation | e] w]; simpl.
    + destruct (Js.member operation "name") as [e | name]; simpl;
        (split;
         [| intros key Hkey; rewrite lookup_insert_ne by congruence; congruence]);
        eexists; rewrite Hrequests, <- app_assoc;
        (split; [reflexivity | split; simpl; lia]).
    + split;
        [| intros key Hkey; rewrite lookup_insert_ne by congruence; congruence].
      eexists. rewrite Hrequests, <- app_assoc.
      split; [reflexivity | split; simpl; lia].
  - simpl. split; [| intros key _; rewrite Hpayload; reflexivity].
    exists []. rewrite Hrequests. split; [reflexivity | split; simpl; lia].
Qed.

End MoreCloudFunctionsFacts.

Section CloudFunctionsReads.
Context {W : Type} (super : CloudFunctions.ApiBase W).
Import CloudFunctions.

(** One read through the parent class: the request is recorded, the world
    is what the service left, the outcome is the one of the service. *)
Lemma superGet_eq (path : string) (s : State W) :
  superGet super path s
  = (fst (get super path (world s)),
     {| world := snd (get super path (world s)); payload := payload s;
        requests := requests s ++ [HttpGet path]; console := console s |}).
Proof.
  unfold superGet, request.
  destruct (get super path (world s)) as [o w]. reflexivity.
Qed.

(** X12. [listLocations] reads [projects/<project>/locations], whatever the
    location of the handler, and answers with the [locations] of the
    response object; a response object without [locations], such as an
    error response, is not an error for it: the answer is [undefined].  A
    read that throws is thrown on. *)
Theorem listLocations_answers_the_locations_property (this : t) (s : State W) :
  let run := listLocations super this s in
  let path := "projects/" ++ projectId this ++ "/locations" in
  requests (snd run) = (requests s ++ [HttpGet path])%list
  /\ payload (snd run) = payload s
  /\ (forall props w,
      get super path (world s) = (Ret (Js.Obj props), w) ->
      fst run = Ret (default Js.Undefined (props !! "locations")))
  /\ (forall e w,
      get super path (world s) = (Throw e, w) -> fst run = Throw e).
Proof.
  intros run path. subst run.
  unfold listLocations, bind. fold path. rewrite superGet_eq.
  destruct (get super path (world s)) as [[response | e] w]; simpl.
  - destruct (Js.member response "locations") as [e | locations] eqn:Hmember;
      simpl; repeat split; try discriminate;
      intros props w' Heq; inversion Heq; subst response;
      simpl in Hmember; congruence.
  - repeat split; try discriminate.
    intros e' w' Heq. inversion Heq. reflexivity.
Qed.

(** X14. [exist] writes to the console only when the status is unknown:
    when it returns, the console is as before; when the response carries no
    name and an error whose code is not 404, the console gets one line, the
    text of the error thrown together with the response. *)
Theorem exist_reports_unknown_status_only (this : t) (functionName : string)
    (s : State W) (response : Js.Value) (w : W) :
  get super (functionPath this functionName) (world s) = (Ret response, w) ->
  let run := exist super this functionName s in
  (forall b, fst run = Ret b -> console (snd run) = console s)
  /\ (forall code,
      carriesName response = false ->
      errorCode response = Some code ->
      Js.strictEqNum code 404 = false ->
      console (snd run)
      = (console s
         ++ [(("Unknown status of Cloud Functions " ++ functionName)%string,
              response)])%list).
Proof.
  intros Hget run. subst run.
  unfold exist, getFunction, superGet, request, bind.
  fold (functionPath this functionName). rewrite Hget.
  unfold carriesName, errorCode. simpl.
  destruct (Js.member response "name") as [e | name] eqn:Hname; simpl.
  - assert (Hnone : exists e', Js.member response "error" = inl e')
      by (destruct response; simpl in *; try discriminate; eexists; reflexivity).
    destruct Hnone as [e' Hnone]. rewrite Hnone.
    split; [intros b Hret; reflexivity | intros code _ Hcode; discriminate].
  - destruct (Js.truthy name); simpl.
    + split; [intros b Hret; reflexivity | intros code Hfalse; discriminate].
    + destruct (Js.member response "error") as [e | error]; simpl.
      * split; [intros b Hret; reflexivity | intros code _ Hcode; discriminate].
      * destruct (Js.member error "code") as [e | code]; simpl.
        -- split; [intros b Hret; reflexivity
                  | intros code _ Hcode; discriminate].
        -- destruct (Js.strictEqNum code 404) eqn:Hcode; simpl.
           ++ split; [intros b Hret; reflexivity |].
              intros c _ Hc Hneq. inversion Hc; subst c. congruence.
           ++ split; [intros b Hret; discriminate |].
              intros c _ Hc _. reflexivity.
Qed.

End CloudFunctionsReads.

Lemma createOrUpdate_stops_when_exist_throws_witness :
  let run :=
    CloudFunctions.createOrUpdate (CloudDoubles.failing 403) CloudDoubles.this
      "main" (CloudDoubles.start []) in
  fst run = Throw (Js.PlainError "Unknown status of Cloud Functions main")
  /\ CloudFunctions.payload (snd run) = CloudDoubles.payloadProps
  /\ CloudFunctions.requests (snd run)
     = [CloudFunctions.HttpGet
          "projects/my-project/locations/europe-west1/functions/main"].
Proof.
  assert (Hexist :
    CloudFunctions.exist (CloudDoubles.failing 403) CloudDoubles.this "main"
      (CloudDoubles.start [])
    = (Throw (Js.PlainError "Unknown status of Cloud Functions main"),
       {| CloudFunctions.world := [];
          CloudFunctions.payload := CloudDoubles.payloadProps;
          CloudFunctions.requests :=
            [CloudFunctions.HttpGet
               "projects/my-project/locations/europe-west1/functions/main"];
          CloudFunctions.console :=
            [("Unknown status of Cloud Functions main",
              CloudDoubles.errorResponse 403)] |}))
    by (vm_compute; reflexivity).
  destruct (createOrUpdate_stops_when_exist_throws (CloudDoubles.failing 403)
              CloudDoubles.this "main" (CloudDoubles.start []) _ _ Hexist)
    as (Hrun & _ & _).
  cbv zeta. rewrite Hrun. simpl. repeat split.
Defined.

Lemma creation_names_the_payload_witness :
  let run :=
    CloudFunctions.createOrUpdate MoreDoubles.readOnly CloudDoubles.this "main"
      (CloudDoubles.start []) in
  CloudFunctions.payload (snd run) !! "name"
  = Some (Js.Str "projects/my-project/locations/europe-west1/functions/main")
  /\ CloudFunctions.payload (snd run) !! "runtime"
     = CloudFunctions.payload (CloudDoubles.start []) !! "runtime"
  /\ fst run = Throw (Js.PlainError "permission denied").
Proof.
  assert (Hexist :
    CloudFunctions.exist MoreDoubles.readOnly CloudDoubles.this "main"
      (CloudDoubles.start [])
    = (Ret false,
       {| CloudFunctions.world := [];
          CloudFunctions.payload := CloudDoubles.payloadProps;
          CloudFunctions.requests :=
            [CloudFunctions.HttpGet
               "projects/my-project/locations/europe-west1/functions/main"];
          CloudFunctions.console := [] |}))
    by (vm_compute; reflexivity).
  destruct (creation_names_the_payload MoreDoubles.readOnly CloudDoubles.this
              "main" (CloudDoubles.start []) _ Hexist)
    as (_ & Hname & Hrest & Hthrow).
  split; [| split].
  - etransitivity; [exact Hname |]. vm_compute. reflexivity.
  - apply Hrest. discriminate.
  - apply (Hthrow (Js.PlainError "permission denied") []). reflexivity.
Defined.

Lemma listLocations_answers_the_locations_property_witness :
  fst (CloudFunctions.listLocations CloudDoubles.service CloudDoubles.this
         (CloudDoubles.start []))
  = Ret Js.Undefined
  /\ fst (CloudFunctions.listLocations MoreDoubles.unreachable CloudDoubles.this
            (CloudDoubles.start []))
     = Throw (Js.PlainError "network down").
Proof.
  split.
  - destruct (listLocations_answers_the_locations_property CloudDoubles.service
                CloudDoubles.this (CloudDoubles.start []))
      as (_ & _ & Hobject & _).
    etransitivity.
    + apply (Hobject {[ "error" := Js.Obj {[ "code" := Js.Num 404 ]} ]} []).
      vm_compute. reflexivity.
    + vm_compute. reflexivity.
  - destruct (listLocations_answers_the_locations_property
                MoreDoubles.unreachable CloudDoubles.this (CloudDoubles.start []))
      as (_ & _ & _ & Hthrow).
    apply (Hthrow (Js.PlainError "network down") []). reflexivity.
Defined.

Lemma exist_reports_unknown_status_only_witness :
  CloudFunctions.console
    (snd (CloudFunctions.exist (CloudDoubles.failing 403) CloudDoubles.this
            "main" (CloudDoubles.start [])))
  = [("Unknown status of Cloud Functions main", CloudDoubles.errorResponse 403)].
Proof.
  destruct (exist_reports_unknown_status_only (CloudDoubles.failing 403)
              CloudDoubles.this "main" (CloudDoubles.start [])
              (CloudDoubles.errorResponse 403) [] eq_refl) as [_ Hunknown].
  etransitivity.
  - apply (Hunknown (Js.Num 403)); vm_compute; reflexivity.
  - reflexivity.
Defined.
